(** * json2spark_mapper: the JSON-Schema to Spark-SQL schema mapper

    A shallow embedding of [src/json2spark_mapper/schema_mapper.py] and the
    properties of its type mapping.

    The Python functions work on the value that [json.load] returns for a
    schema document, so the embedding starts from that value type and from
    the handful of Python operations the mapper applies to it ([in],
    subscripting, [dict.get], [len], [int], iteration). *)

From Stdlib Require Import ZArith List String Ascii Bool Lia ZifyBool.
From Stdlib Require Import Floats.SpecFloat.
Import ListNotations.

Local Open Scope string_scope.
Local Open Scope Z_scope.

#[local] Set Warnings "-register-all".

(** ** Parsed JSON values *)

(** A [dict] keeps its entries in insertion order, which is the order
    [dict.items()] yields them in; the mapper depends on that order.  The
    keys of a dict are distinct; nothing below needs that. *)
Inductive json : Type :=
| JNone
| JBool (b : bool)
| JInt (z : Z)
| JFloat (f : spec_float)
| JStr (s : string)
| JList (l : list json)
| JDict (d : list (string * json)).

Definition dict : Type := list (string * json).

(** ** Spark SQL types ([pyspark.sql.types])

    The constructors are called with whatever the mapper computed, and
    that can be Python's [None]; the slots the mapper fills are therefore
    optional.  pyspark's constructors assert that what they are given is
    a type ([ArrayType_init] and [StructField_init] below), so a [None]
    never ends up in a type the mapper returns. *)
Inductive DataType : Type :=
| ByteType
| ShortType
| IntegerType
| LongType
| FloatType
| DoubleType
| StringType
| BooleanType
| TimestampType
| DateType
| NullType
| ArrayType (elementType : option DataType)
| StructType (fields : list StructField)
with StructField : Type :=
| mkStructField (name : string) (dataType : option DataType) (nullable : bool).

Definition fields (t : DataType) : list StructField :=
  match t with
  | StructType fs => fs
  | _ => []
  end.

Definition name (f : StructField) : string :=
  match f with mkStructField n _ _ => n end.

Definition dataType (f : StructField) : option DataType :=
  match f with mkStructField _ t _ => t end.

Definition nullable (f : StructField) : bool :=
  match f with mkStructField _ _ b => b end.

(** No slot of [t] holds [None]. *)
Fixpoint complete (t : DataType) : bool :=
  match t with
  | ArrayType (Some e) => complete e
  | ArrayType None => false
  | StructType fs =>
      forallb (fun f =>
                 match f with
                 | mkStructField _ (Some ft) _ => complete ft
                 | mkStructField _ None _ => false
                 end) fs
  | _ => true
  end.

(** ** Outcomes of a call *)

Inductive exn : Type :=
| KeyError (key : string)
| TypeError
| AttributeError
| AssertionError
| OverflowError
| ValueError                      (* raised by [int] *)
| InvalidJSONType (ty : json)     (* ValueError(f"Invalid JSON type: {ty}") *)
| Exception_ (msg : string).      (* a bare Exception(msg) *)

(** [OutOfFuel] belongs to the recursion scheme of the embedding only:
    [fuel_enough] below shows the mapper never ends there. *)
Inductive result (A : Type) : Type :=
| Return (a : A)
| Raise (e : exn)
| OutOfFuel.

Arguments Return {A} a.
Arguments Raise {A} e.
Arguments OutOfFuel {A}.

Definition bind {A B : Type} (m : result A) (k : A -> result B) : result B :=
  match m with
  | Return a => k a
  | Raise e => Raise e
  | OutOfFuel => OutOfFuel
  end.

Notation "x <- m ;; k" := (bind m (fun x => k))
  (at level 61, m at next level, right associativity).

(** A [for] loop whose body updates one local variable. *)
Fixpoint for_each {A S : Type} (body : A -> S -> result S) (l : list A) (s : S)
  : result S :=
  match l with
  | [] => Return s
  | a :: rest => s' <- body a s ;; for_each body rest s'
  end.

(** ** The pyspark constructors the mapper calls

    [ArrayType(elementType)] and [StructField(name, dataType, nullable)]
    start with [assert isinstance(..., DataType)] on the type they are
    given; [None] fails it. *)
Definition ArrayType_init (elementType : option DataType) : result DataType :=
  match elementType with
  | Some _ => Return (ArrayType elementType)
  | None => Raise AssertionError
  end.

Definition StructField_init (name : string) (dataType : option DataType)
  (nullable : bool) : result StructField :=
  match dataType with
  | Some _ => Return (mkStructField name dataType nullable)
  | None => Raise AssertionError
  end.

(** ** The Python operations the mapper uses *)

Fixpoint dict_lookup (key : string) (d : dict) : option json :=
  match d with
  | [] => None
  | (k, v) :: rest => if String.eqb key k then Some v else dict_lookup key rest
  end.

(** [v == s] for a string literal [s]. *)
Definition eq_str (v : json) (s : string) : bool :=
  match v with
  | JStr s' => String.eqb s' s
  | _ => false
  end.

Definition is_some {A : Type} (o : option A) : bool :=
  match o with Some _ => true | None => false end.

(** [key in container]: key membership for a dict, element membership for
    a list, substring test for a str; other values are not iterable. *)
Definition py_in (key : string) (container : json) : result bool :=
  match container with
  | JDict d => Return (is_some (dict_lookup key d))
  | JList l => Return (existsb (fun x => eq_str x key) l)
  | JStr s => Return (is_some (String.index 0 key s))
  | _ => Raise TypeError
  end.

(** [container[key]] for a string key. *)
Definition py_getitem (container : json) (key : string) : result json :=
  match container with
  | JDict d =>
      match dict_lookup key d with
      | Some v => Return v
      | None => Raise (KeyError key)
      end
  | _ => Raise TypeError
  end.

(** [container.get(key, default)] *)
Definition py_get (container : json) (key : string) (default : json) : result json :=
  match container with
  | JDict d =>
      match dict_lookup key d with
      | Some v => Return v
      | None => Return default
      end
  | _ => Raise AttributeError
  end.

(** [container.items()] *)
Definition py_items (container : json) : result (list (string * json)) :=
  match container with
  | JDict d => Return d
  | _ => Raise AttributeError
  end.

Definition chars (s : string) : list json :=
  map (fun c => JStr (String c EmptyString)) (list_ascii_of_string s).

(** [len(v)] *)
Definition py_len (v : json) : result nat :=
  match v with
  | JList l => Return (List.length l)
  | JDict d => Return (List.length d)
  | JStr s => Return (String.length s)
  | _ => Raise TypeError
  end.

(** The values a [for] loop over [v] visits. *)
Definition py_iter (v : json) : result (list json) :=
  match v with
  | JList l => Return l
  | JDict d => Return (map (fun kv => JStr (fst kv)) d)
  | JStr s => Return (chars s)
  | _ => Raise TypeError
  end.

(** [isinstance(v, dict)] *)
Definition is_dict (v : json) : bool :=
  match v with JDict _ => true | _ => false end.

(** [int(f)] for a float: truncation towards zero. *)
Definition int_of_float (f : spec_float) : result Z :=
  match f with
  | S754_zero _ => Return 0
  | S754_infinity _ => Raise OverflowError
  | S754_nan => Raise ValueError
  | S754_finite s m e =>
      let magnitude :=
        if 0 <=? e then Z.pos m * 2 ^ e else Z.pos m / 2 ^ (- e) in
      Return (if s then - magnitude else magnitude)
  end.

(** ** Inclusive numeric range *)

Module Range.
Record t : Type := mk { min : option Z; max : option Z; defined : bool }.

Definition set_min (r : t) (v : option Z) : t := mk v (max r) (defined r).
Definition set_max (r : t) (v : option Z) : t := mk (min r) v (defined r).
Definition set_defined (r : t) (b : bool) : t := mk (min r) (max r) b.
End Range.

(** [x in range(lo, hi)] where [x] is an integer or [None]. *)
Definition in_range (x : option Z) (lo hi : Z) : bool :=
  match x with
  | Some z => (lo <=? z) && (z <? hi)
  | None => false
  end.

(** Nesting depth of a value; it bounds the depth of the mapper's call
    stack. *)
Fixpoint depth (v : json) : nat :=
  match v with
  | JList l => S (list_max (map depth l))
  | JDict d => S (list_max (map (fun kv => depth (snd kv)) d))
  | _ => O
  end.

(** ** Sample schemas *)

(** [int] on a str, for the samples: signed decimal numerals in ASCII. *)
Definition digit_of (c : ascii) : option Z :=
  let n := Z.of_nat (nat_of_ascii c) in
  if (48 <=? n) && (n <=? 57) then Some (n - 48) else None.

Fixpoint digits (s : string) (acc : Z) : option Z :=
  match s with
  | EmptyString => Some acc
  | String c rest =>
      match digit_of c with
      | Some n => digits rest (10 * acc + n)
      | None => None
      end
  end.

Definition decimal_int (s : string) : option Z :=
  match s with
  | EmptyString => None
  | String "-" (String _ _ as rest) => option_map Z.opp (digits rest 0)
  | String "+" (String _ _ as rest) => digits rest 0
  | _ => digits s 0
  end.

Module Sample.

(** {"type": "integer", "minimum": -129, "maximum": 127} *)
Definition small_int : dict :=
  [("type", JStr "integer"); ("minimum", JInt (-129)); ("maximum", JInt 127)].

(** {"minimum": 0, "exclusiveMaximum": 128} *)
Definition half_open : dict :=
  [("minimum", JInt 0); ("exclusiveMaximum", JInt 128)].

(** {"minimum": 0, "exclusiveMinimum": 10, "maximum": 100,
     "exclusiveMaximum": 50} *)
Definition both_kinds : dict :=
  [("minimum", JInt 0); ("exclusiveMinimum", JInt 10);
   ("maximum", JInt 100); ("exclusiveMaximum", JInt 50)].

Definition person_properties : dict :=
  [("id", JDict [("type", JStr "integer"); ("minimum", JInt 0);
                 ("maximum", JInt 100)]);
   ("name", JDict [("type", JStr "string")]);
   ("born", JDict [("type", JStr "string"); ("format", JStr "date")])].

(** {"type": "object", "properties": {"id": ..., "name": ..., "born": ...},
     "required": ["id", "name"]} *)
Definition person : dict :=
  [("type", JStr "object");
   ("properties", JDict person_properties);
   ("required", JList [JStr "id"; JStr "name"])].

Definition person_fields : list StructField :=
  [mkStructField "id" (Some ByteType) false;
   mkStructField "name" (Some StringType) false;
   mkStructField "born" (Some DateType) true].

(** {"type": "array", "items": [{"type": "string"}, {"type": "integer"}]} *)
Definition two_items : dict :=
  [("type", JStr "array");
   ("items", JList [JDict [("type", JStr "string")];
                    JDict [("type", JStr "integer")]])].

(** {"description": "anything"} *)
Definition bare : dict := [("description", JStr "anything")].

(** {"type": "frobnicate"} *)
Definition frobnicate : dict := [("type", JStr "frobnicate")].

(** {"type": "array", "items": []} *)
Definition no_items : dict := [("type", JStr "array"); ("items", JList [])].

(** {"anyOf": [{"type": "string"}, {"type": "integer"}]} *)
Definition any_of : dict :=
  [("anyOf", JList [JDict [("type", JStr "string")];
                    JDict [("type", JStr "integer")]])].

(** {"type": "array", "items": {"anyOf": [...]}} *)
Definition array_of_any_of : dict :=
  [("type", JStr "array"); ("items", JDict any_of)].

(** {"properties": {"tags": {"anyOf": [...]}}} *)
Definition property_any_of : dict :=
  [("properties", JDict [("tags", JDict any_of)])].

(** {"type": "string", "format": "date-time", "minimum": null} *)
Definition timestamp : dict :=
  [("type", JStr "string"); ("format", JStr "date-time"); ("minimum", JNone)].

(** {"type": "number", "minimum": "low", "maximum": null} *)
Definition number : dict :=
  [("type", JStr "number"); ("minimum", JStr "low"); ("maximum", JNone)].

(** {"const": 42} *)
Definition const_42 : dict := [("const", JInt 42)].

(** {"type": "object", "required": ["id"]} *)
Definition no_properties : dict :=
  [("type", JStr "object"); ("required", JList [JStr "id"])].

(** {"type": "object", "properties": [{"type": "string"}]} *)
Definition listed_properties : dict :=
  [("type", JStr "object");
   ("properties", JList [JDict [("type", JStr "string")]])].

(** The properties and the required of [person], with no "type" and a
    title. *)
Definition untyped_person : dict :=
  [("title", JStr "Person");
   ("required", JList [JStr "id"; JStr "name"]);
   ("properties", JDict person_properties)].

(** {"properties": {"id": {"type": "boolean"}, "age": {"type": "frobnicate"},
                    "name": {"type": "string"}}} *)
Definition bad_property : dict :=
  [("properties",
    JDict [("id", JDict [("type", JStr "boolean")]);
           ("age", JDict frobnicate);
           ("name", JDict [("type", JStr "string")])])].

(** {"properties": {"id": {"type": "boolean"}}, "required": true} *)
Definition required_true : dict :=
  [("properties", JDict [("id", JDict [("type", JStr "boolean")])]);
   ("required", JBool true)].

(** {"type": "array"} *)
Definition array_without_items : dict := [("type", JStr "array")].

(** {"type": "array", "items": {"type": "boolean"}} *)
Definition single_item : dict :=
  [("type", JStr "array"); ("items", JDict [("type", JStr "boolean")])].

(** {"type": "array", "items": [{"type": "boolean"}]} *)
Definition listed_item : dict :=
  [("type", JStr "array"); ("items", JList [JDict [("type", JStr "boolean")]])].

(** {"type": "array", "items": [{"type": "frobnicate"}, {"type": "string"}]} *)
Definition bad_first_item : dict :=
  [("type", JStr "array");
   ("items", JList [JDict frobnicate; JDict [("type", JStr "string")]])].

(** {"type": "integer", "minimum": 0, "maximum": null} *)
Definition null_maximum : dict :=
  [("type", JStr "integer"); ("minimum", JInt 0); ("maximum", JNone)].

(** {"type": "integer", "minimum": 0, "maximum": 100} *)
Definition percent : dict :=
  [("type", JStr "integer"); ("minimum", JInt 0); ("maximum", JInt 100)].

(** {"type": "integer", "exclusiveMinimum": -128, "exclusiveMaximum": 128} *)
Definition open_byte : dict :=
  [("type", JStr "integer"); ("exclusiveMinimum", JInt (-128));
   ("exclusiveMaximum", JInt 128)].

(** {"type": "array", "items": {"type": "array"}}: the inner array has
    no [items] *)
Definition array_of_bare_array : dict :=
  [("type", JStr "array"); ("items", JDict array_without_items)].

(** {"type": "array", "items": [{"type": "array"}, {"type": "string"}]} *)
Definition bare_array_first : dict :=
  [("type", JStr "array");
   ("items", JList [JDict array_without_items; JDict [("type", JStr "string")]])].

(** {"properties": {"a": {"type": "array", "items": {"type": "array"}}}} *)
Definition property_of_bare_array : dict :=
  [("properties", JDict [("a", JDict array_of_bare_array)])].

(** {"properties": {"a": {"description": "anything"}}} *)
Definition property_bare : dict :=
  [("properties", JDict [("a", JDict bare)])].

End Sample.

Section Mapper.

(** [int(s)] for a str [s] is the interpreter's integer-literal parser;
    [None] stands for the [ValueError] it raises on other text. *)
Variable int_of_str : string -> option Z.

Definition py_int (v : json) : result Z :=
  match v with
  | JInt z => Return z
  | JBool b => Return (if b then 1 else 0)
  | JFloat f => int_of_float f
  | JStr s =>
      match int_of_str s with
      | Some z => Return z
      | None => Raise ValueError
      end
  | _ => Raise TypeError
  end.

Definition _determine_inclusive_range (value : json) : result Range.t :=
  let range := Range.mk None None false in
  has_min <- py_in "minimum" value ;;
  range <- (if has_min : bool
            then v <- py_getitem value "minimum" ;;
                 z <- py_int v ;;
                 Return (Range.set_min range (Some z))
            else Return range) ;;
  has_xmin <- py_in "exclusiveMinimum" value ;;
  range <- (if has_xmin : bool
            then v <- py_getitem value "exclusiveMinimum" ;;
                 z <- py_int v ;;
                 Return (Range.set_min range (Some (z - 1)))
            else Return range) ;;
  has_max <- py_in "maximum" value ;;
  range <- (if has_max : bool
            then v <- py_getitem value "maximum" ;;
                 z <- py_int v ;;
                 Return (Range.set_max range (Some z))
            else Return range) ;;
  has_xmax <- py_in "exclusiveMaximum" value ;;
  range <- (if has_xmax : bool
            then v <- py_getitem value "exclusiveMaximum" ;;
                 z <- py_int v ;;
                 Return (Range.set_max range (Some (z - 1)))
            else Return range) ;;
  Return (if is_some (Range.min range) && is_some (Range.max range)
          then Range.set_defined range true
          else range).

Definition _convert_json_string (value : json) : result DataType :=
  let field_type := StringType in
  has_format <- py_in "format" value ;;
  if has_format : bool then
    format <- py_getitem value "format" ;;
    if eq_str format "date-time" then Return TimestampType
    else if eq_str format "date" then Return DateType
    else Return field_type
  else Return field_type.

Definition _convert_json_int (value : json) : result DataType :=
  let field_type := LongType in
  determined_range <- _determine_inclusive_range value ;;
  if Range.defined determined_range then
    let lo := Range.min determined_range in
    let hi := Range.max determined_range in
    if in_range lo (-128) (127 + 1) && in_range hi (-128) (127 + 1)
    then Return ByteType
    else if in_range lo (-32768) (32767 + 1)
            && in_range hi (-32768) (32767 + 1)
    then Return ShortType
    else if in_range lo (-2147483648) (2147483647 + 1)
            && in_range hi (-2147483648) (2147483647 + 1)
    then Return IntegerType
    else Return field_type
  else Return field_type.

Definition _convert_json_number (value : json) : DataType := DoubleType.

(** Lines 46-48: a single item schema is put into a list. *)
Definition normalize_items (items_schemas : json) : json :=
  if is_dict items_schemas then JList [items_schemas] else items_schemas.

(** The two mutually recursive functions.  [fuel] bounds the depth of the
    call stack; each call spends one unit.  The [print] of line 49 writes
    to standard output only and is left out. *)
Fixpoint from_json_to_spark_fuel (fuel : nat) (schema : json) {struct fuel}
  : result DataType :=
  match fuel with
  | O => OutOfFuel
  | S fuel' =>
      properties <- py_getitem schema "properties" ;;
      items <- py_items properties ;;
      fields <- for_each
        (fun (kv : string * json) (fields : list StructField) =>
           let (key, value) := kv in
           field_type <- _map_json_type_to_spark_type_fuel fuel' value ;;
           let nullable := true in
           required <- py_get schema "required" (JList []) ;;
           is_required <- py_in key required ;;
           let nullable := if is_required : bool then false else nullable in
           field <- StructField_init key field_type nullable ;;
           Return (fields ++ [field])%list)
        items [] ;;
      Return (StructType fields)
  end

with _map_json_type_to_spark_type_fuel (fuel : nat) (json_snippet : json)
  {struct fuel} : result (option DataType) :=
  match fuel with
  | O => OutOfFuel
  | S fuel' =>
      let value := json_snippet in
      let field_type := @None DataType in
      has_type <- py_in "type" json_snippet ;;
      if has_type : bool then
        ty <- py_getitem value "type" ;;
        if eq_str ty "string" then
          t <- _convert_json_string value ;; Return (Some t)
        else if eq_str ty "boolean" then
          Return (Some BooleanType)
        else if eq_str ty "integer" then
          t <- _convert_json_int value ;; Return (Some t)
        else if eq_str ty "number" then
          Return (Some (_convert_json_number value))
        else if eq_str ty "array" then
          has_items <- py_in "items" value ;;
          if has_items : bool then
            items_schemas <- py_getitem value "items" ;;
            let items_schemas := normalize_items items_schemas in
            n <- py_len items_schemas ;;
            if (n <? 1)%nat then
              Raise (Exception_ "Expected a least one type definition in an array")
            else
              item_schemas <- py_iter items_schemas ;;
              for_each
                (fun (item_schema : json) (_ : option DataType) =>
                   item_type <- py_getitem item_schema "type" ;;
                   if eq_str item_type "object" then
                     s <- from_json_to_spark_fuel fuel' item_schema ;;
                     a <- ArrayType_init (Some (StructType (fields s))) ;;
                     Return (Some a)
                   else
                     t <- _map_json_type_to_spark_type_fuel fuel' item_schema ;;
                     a <- ArrayType_init t ;;
                     Return (Some a))
                item_schemas field_type
          else Return field_type
        else if eq_str ty "object" then
          s <- from_json_to_spark_fuel fuel' value ;;
          Return (Some (StructType (fields s)))
        else if eq_str ty "null" then
          Return (Some NullType)
        else if eq_str ty "any" then
          Return (Some StringType)
        else Raise (InvalidJSONType ty)
      else
        has_anyOf <- py_in "anyOf" value ;;
        if has_anyOf : bool then Return (Some StringType)
        else
          has_const <- py_in "const" value ;;
          if has_const : bool then Return (Some StringType)
          else Return field_type
  end.

(** The call stack never goes deeper than the value is nested, so the
    functions of the source are the fuelled ones started with that much. *)
Definition from_json_to_spark (schema : json) : result DataType :=
  from_json_to_spark_fuel (S (depth schema)) schema.

Definition _map_json_type_to_spark_type (json_snippet : json)
  : result (option DataType) :=
  _map_json_type_to_spark_type_fuel (S (depth json_snippet)) json_snippet.

(** ** Vocabulary of the specification *)

(** The value of a bound keyword of node [d], read through [int]: [None]
    when the keyword is absent. *)
Definition bound_at (d : dict) (keyword : string) (b : option Z) : Prop :=
  match dict_lookup keyword d with
  | Some v => exists z, py_int v = Return z /\ b = Some z
  | None => b = None
  end.

(** The inclusive bound the source derives from a pair of keywords: the
    exclusive one, less one, when it is there. *)
Definition exclusive_first (inclusive exclusive : option Z) : option Z :=
  match exclusive with
  | Some x => Some (x - 1)
  | None => inclusive
  end.

(** Integer widths, narrowest first.  [LongType] is the default: the
    source compares against no range for it. *)
Definition width_rank (t : DataType) : option nat :=
  match t with
  | ByteType => Some 0%nat
  | ShortType => Some 1%nat
  | IntegerType => Some 2%nat
  | LongType => Some 3%nat
  | _ => None
  end.

Definition width_range (t : DataType) : option (Z * Z) :=
  match t with
  | ByteType => Some (-128, 127)
  | ShortType => Some (-32768, 32767)
  | IntegerType => Some (-2147483648, 2147483647)
  | _ => None
  end.

(** [t] contains both ends of [lo, hi], inclusively. *)
Definition contains (t : DataType) (lo hi : Z) : Prop :=
  match width_range t with
  | Some (a, b) => (a <= lo <= b) /\ (a <= hi <= b)
  | None => t = LongType
  end.

Definition narrower (t' t : DataType) : Prop :=
  match width_rank t', width_rank t with
  | Some n', Some n => (n' < n)%nat
  | _, _ => False
  end.

(** [t] is the first width, going from narrow to wide, that contains
    [lo, hi]. *)
Definition narrowest_fit (lo hi : Z) (t : DataType) : Prop :=
  width_rank t <> None
  /\ contains t lo hi
  /\ forall t', narrower t' t -> ~ contains t' lo hi.

Definition recognized_types : list string :=
  ["string"; "boolean"; "integer"; "number"; "array"; "object"; "null"; "any"].

(** The names listed under [required]; none when the keyword is absent. *)
Definition required_names (d : dict) (names : list json) : Prop :=
  match dict_lookup "required" d with
  | Some v => v = JList names
  | None => names = []
  end.

(** The element type one pass of the loop of lines 56-60 computes for
    [item_schema], before [ArrayType] is put around it. *)
Definition item_element_type (item_schema : json) : result (option DataType) :=
  item_type <- py_getitem item_schema "type" ;;
  if eq_str item_type "object" then
    s <- from_json_to_spark item_schema ;;
    Return (Some (StructType (fields s)))
  else _map_json_type_to_spark_type item_schema.

(** One pass of the loop of lines 7-22. *)
Definition append_field (schema : json) (kv : string * json)
  (fields : list StructField) : result (list StructField) :=
  let (key, value) := kv in
  field_type <- _map_json_type_to_spark_type value ;;
  required <- py_get schema "required" (JList []) ;;
  is_required <- py_in key required ;;
  let nullable := if is_required : bool then false else true in
  field <- StructField_init key field_type nullable ;;
  Return (fields ++ [field])%list.

(** Field [f] is what the loop of lines 7-22 appends for the property
    [kv] of [schema]. *)
Definition field_for (schema : json) (f : StructField) (kv : string * json)
  : Prop :=
  name f = fst kv
  /\ _map_json_type_to_spark_type (snd kv) = Return (dataType f)
  /\ exists required,
       py_get schema "required" (JList []) = Return required
       /\ py_in (fst kv) required = Return (negb (nullable f)).

(** The keywords [_determine_inclusive_range] reads, in the order it
    reads them. *)
Definition bound_keywords : list string :=
  ["minimum"; "exclusiveMinimum"; "maximum"; "exclusiveMaximum"].

(** Every bound keyword that node [d] carries converts under [int]. *)
Definition bounds_convert (d : dict) : Prop :=
  forall keyword v,
    In keyword bound_keywords -> dict_lookup keyword d = Some v ->
    exists z, py_int v = Return z.

(** Every bound keyword that node [d] carries holds an integer. *)
Definition integer_bounds (d : dict) : Prop :=
  forall keyword v,
    In keyword bound_keywords -> dict_lookup keyword d = Some v ->
    exists z, v = JInt z.

(** The integer [n] meets the integer bounds node [d] states, read the
    way JSON Schema reads the four keywords. *)
Definition allows (d : dict) (n : Z) : Prop :=
  (forall z, dict_lookup "minimum" d = Some (JInt z) -> z <= n)
  /\ (forall z, dict_lookup "exclusiveMinimum" d = Some (JInt z) -> z < n)
  /\ (forall z, dict_lookup "maximum" d = Some (JInt z) -> n <= z)
  /\ (forall z, dict_lookup "exclusiveMaximum" d = Some (JInt z) -> n < z).

(** The width the if-chain of lines 117-122 picks for [lo, hi], written
    with inclusive ends. *)
Definition width_for (lo hi : Z) : DataType :=
  if (-128 <=? lo) && (lo <=? 127) && ((-128 <=? hi) && (hi <=? 127))
  then ByteType
  else if (-32768 <=? lo) && (lo <=? 32767)
          && ((-32768 <=? hi) && (hi <=? 32767))
  then ShortType
  else if (-2147483648 <=? lo) && (lo <=? 2147483647)
          && ((-2147483648 <=? hi) && (hi <=? 2147483647))
  then IntegerType
  else LongType.

(** Values that are neither a dict, a list nor a str. *)
Definition is_scalar (v : json) : bool :=
  match v with
  | JNone | JBool _ | JInt _ | JFloat _ => true
  | _ => false
  end.

Arguments from_json_to_spark : simpl never.
Arguments _map_json_type_to_spark_type : simpl never.

(** ** Fuel *)

Lemma list_max_In (n : nat) (l : list nat) : In n l -> (n <= list_max l)%nat.
Proof.
  induction l as [|m l IH]; simpl; intros H; [contradiction|].
  destruct H as [->|H]; [lia|]. specialize (IH H). lia.
Qed.

Lemma depth_In_list (v : json) (l : list json) :
  In v l -> (depth v < depth (JList l))%nat.
Proof.
  intros H. simpl. apply Nat.lt_succ_r, list_max_In.
  apply in_map_iff. exists v. now split.
Qed.

Lemma depth_In_dict (k : string) (v : json) (d : dict) :
  In (k, v) d -> (depth v < depth (JDict d))%nat.
Proof.
  intros H. simpl. apply Nat.lt_succ_r, list_max_In.
  apply in_map_iff. exists (k, v). now split.
Qed.

Lemma dict_lookup_In (k : string) (d : dict) (v : json) :
  dict_lookup k d = Some v -> In (k, v) d.
Proof.
  induction d as [|[k' v'] d IH]; simpl; [discriminate|].
  destruct (String.eqb_spec k k') as [->|_].
  - intros [= ->]. now left.
  - intros H. right. now apply IH.
Qed.

Lemma depth_dict_lookup (k : string) (d : dict) (v : json) :
  dict_lookup k d = Some v -> (depth v < depth (JDict d))%nat.
Proof. intros H. eapply depth_In_dict, dict_lookup_In, H. Qed.

Lemma depth_py_iter (items_schemas item : json) (l : list json) :
  py_iter (normalize_items items_schemas) = Return l ->
  In item l -> (depth item <= depth items_schemas)%nat.
Proof.
  destruct items_schemas; simpl; try discriminate; intros [= <-] H.
  - unfold chars in H. apply in_map_iff in H. destruct H as (c & <- & _).
    simpl. lia.
  - apply depth_In_list in H. simpl in *. lia.
  - destruct H as [<-|[]]. simpl. lia.
Qed.

Lemma for_each_ext {A S : Type} (body1 body2 : A -> S -> result S) (l : list A) :
  (forall a s, In a l -> body1 a s = body2 a s) ->
  forall s, for_each body1 l s = for_each body2 l s.
Proof.
  induction l as [|a l IH]; simpl; intros H s; [reflexivity|].
  rewrite (H a s) by now left.
  destruct (body2 a s); simpl; try reflexivity.
  apply IH. intros a' s' Hin. apply H. now right.
Qed.

(** Once there is enough fuel for the nesting depth, more fuel changes
    nothing. *)
Lemma fuel_irrelevant (f1 : nat) :
  forall (f2 : nat) (v : json),
    ((depth v < f1)%nat -> (depth v < f2)%nat ->
     _map_json_type_to_spark_type_fuel f1 v
     = _map_json_type_to_spark_type_fuel f2 v)
    /\ ((depth v <= f1)%nat -> (1 <= f1)%nat ->
        (depth v <= f2)%nat -> (1 <= f2)%nat ->
        from_json_to_spark_fuel f1 v = from_json_to_spark_fuel f2 v).
Proof.
  induction f1 as [|f1 IH]; intros f2 v; split; try lia.
  - intros H1 H2. destruct f2 as [|f2]; [lia|]. simpl.
    destruct v as [| | | | | |d]; try reflexivity.
    + simpl.
      destruct (dict_lookup "type" d) as [ty|] eqn:Hty; simpl; [|reflexivity].
      destruct (eq_str ty "string"); [reflexivity|].
      destruct (eq_str ty "boolean"); [reflexivity|].
      destruct (eq_str ty "integer"); [reflexivity|].
      destruct (eq_str ty "number"); [reflexivity|].
      destruct (eq_str ty "array").
      * destruct (dict_lookup "items" d) as [its|] eqn:Hits; simpl; [|reflexivity].
        pose proof (depth_dict_lookup _ _ _ Hits) as Hd.
        destruct (py_len (normalize_items its)); simpl; try reflexivity.
        destruct (a <? 1)%nat; [reflexivity|].
        destruct (py_iter (normalize_items its)) as [l| |] eqn:Hl; simpl;
          try reflexivity.
        apply for_each_ext. intros item s Hin.
        pose proof (depth_py_iter _ _ _ Hl Hin) as Hi.
        destruct (py_getitem item "type"); simpl; try reflexivity.
        destruct (eq_str a0 "object").
        -- destruct (IH f2 item) as [_ ->]; [reflexivity|lia..].
        -- destruct (IH f2 item) as [-> _]; [reflexivity|lia..].
      * destruct (eq_str ty "object"); [|reflexivity].
        assert (1 <= depth (JDict d))%nat by (simpl; lia).
        destruct (IH f2 (JDict d)) as [_ ->]; [reflexivity|lia..].
  - intros H1 _ H2 H3. destruct f2 as [|f2]; [lia|]. simpl.
    destruct (py_getitem v "properties") as [props| |] eqn:Hp; simpl;
      try reflexivity.
    destruct (py_items props) as [items| |] eqn:Hi; simpl; try reflexivity.
    destruct v as [| | | | | |d]; simpl in Hp; try discriminate.
    destruct (dict_lookup "properties" d) eqn:Hl; [|discriminate].
    injection Hp as ->.
    destruct props; simpl in Hi; try discriminate. injection Hi as ->.
    apply depth_dict_lookup in Hl.
    erewrite for_each_ext; [reflexivity|].
    intros [key value] s Hin. apply depth_In_dict in Hin.
    destruct (IH f2 value) as [-> _]; [reflexivity|lia..].
Qed.

Lemma bind_fuel {A B : Type} (m : result A) (k : A -> result B) :
  m <> OutOfFuel -> (forall a, m = Return a -> k a <> OutOfFuel) ->
  bind m k <> OutOfFuel.
Proof. destruct m; simpl; intros Hm Hk; [now apply Hk|discriminate|congruence]. Qed.

Lemma for_each_fuel {A S : Type} (body : A -> S -> result S) (l : list A) :
  (forall a s, In a l -> body a s <> OutOfFuel) ->
  forall s, for_each body l s <> OutOfFuel.
Proof.
  induction l as [|a l IH]; simpl; intros H s; [discriminate|].
  apply bind_fuel; [apply H; now left|].
  intros s' _. apply IH. intros a' s'' Hin. apply H. now right.
Qed.

Lemma py_in_fuel (k : string) (v : json) : py_in k v <> OutOfFuel.
Proof. destruct v; discriminate. Qed.

Lemma py_getitem_fuel (v : json) (k : string) : py_getitem v k <> OutOfFuel.
Proof. destruct v; simpl; try discriminate. destruct (dict_lookup k d); discriminate. Qed.

Lemma py_get_fuel (v : json) (k : string) (dflt : json) :
  py_get v k dflt <> OutOfFuel.
Proof. destruct v; simpl; try discriminate. destruct (dict_lookup k d); discriminate. Qed.

Lemma py_int_fuel (v : json) : py_int v <> OutOfFuel.
Proof.
  destruct v; simpl; try discriminate.
  - destruct f; discriminate.
  - destruct (int_of_str s); discriminate.
Qed.

Lemma py_len_fuel (v : json) : py_len v <> OutOfFuel.
Proof. destruct v; discriminate. Qed.

Lemma py_iter_fuel (v : json) : py_iter v <> OutOfFuel.
Proof. destruct v; discriminate. Qed.

Lemma py_items_fuel (v : json) : py_items v <> OutOfFuel.
Proof. destruct v; discriminate. Qed.

Ltac fuel_step :=
  match goal with
  | |- bind _ _ <> OutOfFuel => apply bind_fuel; [|intros ? ?]
  | |- py_in _ _ <> OutOfFuel => apply py_in_fuel
  | |- py_getitem _ _ <> OutOfFuel => apply py_getitem_fuel
  | |- py_get _ _ _ <> OutOfFuel => apply py_get_fuel
  | |- py_int _ <> OutOfFuel => apply py_int_fuel
  | |- py_len _ <> OutOfFuel => apply py_len_fuel
  | |- py_iter _ <> OutOfFuel => apply py_iter_fuel
  | |- py_items _ <> OutOfFuel => apply py_items_fuel
  | |- ArrayType_init ?t <> OutOfFuel => destruct t; discriminate
  | |- StructField_init _ ?t _ <> OutOfFuel => destruct t; discriminate
  | |- Return _ <> OutOfFuel => discriminate
  | |- Raise _ <> OutOfFuel => discriminate
  | |- (if ?b then _ else _) <> OutOfFuel => destruct b
  end.

Lemma _determine_inclusive_range_fuel (value : json) :
  _determine_inclusive_range value <> OutOfFuel.
Proof. unfold _determine_inclusive_range. repeat fuel_step. Qed.

Lemma _convert_json_string_fuel (value : json) :
  _convert_json_string value <> OutOfFuel.
Proof. unfold _convert_json_string. repeat fuel_step. Qed.

Lemma _convert_json_int_fuel (value : json) :
  _convert_json_int value <> OutOfFuel.
Proof.
  unfold _convert_json_int.
  apply bind_fuel; [apply _determine_inclusive_range_fuel|intros r _].
  cbv zeta. repeat fuel_step.
Qed.

(** The fuel the source functions are started with is never used up. *)
Lemma fuel_enough (fuel : nat) :
  forall v : json,
    ((depth v < fuel)%nat ->
     _map_json_type_to_spark_type_fuel fuel v <> OutOfFuel)
    /\ ((depth v <= fuel)%nat -> (1 <= fuel)%nat ->
        from_json_to_spark_fuel fuel v <> OutOfFuel).
Proof.
  induction fuel as [|fuel IH]; intros v; split; try lia.
  - intros H. simpl.
    apply bind_fuel; [apply py_in_fuel|intros has_type _].
    destruct has_type; [|repeat fuel_step].
    apply bind_fuel; [apply py_getitem_fuel|intros ty Hty].
    destruct v as [| | | | | |d]; try discriminate.
    assert (1 <= depth (JDict d))%nat by (simpl; lia).
    destruct (eq_str ty "string");
      [apply bind_fuel; [apply _convert_json_string_fuel|discriminate]|].
    destruct (eq_str ty "boolean"); [discriminate|].
    destruct (eq_str ty "integer");
      [apply bind_fuel; [apply _convert_json_int_fuel|discriminate]|].
    destruct (eq_str ty "number"); [discriminate|].
    destruct (eq_str ty "array").
    + fuel_step; [fuel_step|]. fuel_step; [|fuel_step].
      apply bind_fuel; [apply py_getitem_fuel|intros its Hits].
      simpl in Hits. destruct (dict_lookup "items" d) eqn:Hl; [|discriminate].
      injection Hits as ->. apply depth_dict_lookup in Hl.
      fuel_step; [fuel_step|]. fuel_step; [fuel_step|].
      apply bind_fuel; [apply py_iter_fuel|intros l Hiter].
      apply for_each_fuel. intros item s Hin.
      pose proof (depth_py_iter _ _ _ Hiter Hin) as Hi.
      fuel_step; [fuel_step|].
      fuel_step; (fuel_step; [apply IH; lia|intros; repeat fuel_step]).
    + destruct (eq_str ty "object"); [|repeat fuel_step].
      fuel_step; [apply IH; lia|discriminate].
  - intros H _. simpl.
    apply bind_fuel; [apply py_getitem_fuel|intros props Hp].
    apply bind_fuel; [apply py_items_fuel|intros items Hi].
    destruct v as [| | | | | |d]; simpl in Hp; try discriminate.
    destruct (dict_lookup "properties" d) eqn:Hl; [|discriminate].
    injection Hp as ->.
    destruct props; simpl in Hi; try discriminate. injection Hi as ->.
    apply depth_dict_lookup in Hl.
    apply bind_fuel; [|discriminate].
    apply for_each_fuel. intros [key value] s Hin. apply depth_In_dict in Hin.
    apply bind_fuel; [apply IH; lia|intros; repeat fuel_step].
Qed.

(** ** The source's recursive equations

    [from_json_to_spark] and [_map_json_type_to_spark_type] satisfy the
    bodies of the Python functions, with the recursive calls going to
    themselves. *)

Lemma from_json_to_spark_eq (schema : json) :
  from_json_to_spark schema =
    (properties <- py_getitem schema "properties" ;;
     items <- py_items properties ;;
     fields <- for_each
       (fun (kv : string * json) (fields : list StructField) =>
          let (key, value) := kv in
          field_type <- _map_json_type_to_spark_type value ;;
          required <- py_get schema "required" (JList []) ;;
          is_required <- py_in key required ;;
          let nullable := if is_required : bool then false else true in
          field <- StructField_init key field_type nullable ;;
          Return (fields ++ [field])%list)
       items [] ;;
     Return (StructType fields)).
Proof.
  unfold from_json_to_spark. simpl from_json_to_spark_fuel.
  destruct (py_getitem schema "properties") as [props| |] eqn:Hp; simpl;
    try reflexivity.
  destruct (py_items props) as [items| |] eqn:Hi; simpl; try reflexivity.
  destruct schema as [| | | | | |d]; simpl in Hp; try discriminate.
  destruct (dict_lookup "properties" d) eqn:Hl; [|discriminate].
  injection Hp as ->.
  destruct props; simpl in Hi; try discriminate. injection Hi as ->.
  apply depth_dict_lookup in Hl.
  erewrite for_each_ext; [reflexivity|].
  intros [key value] s Hin. apply depth_In_dict in Hin.
  unfold _map_json_type_to_spark_type.
  destruct (fuel_irrelevant (depth (JDict d)) (S (depth value)) value) as [-> _];
    [reflexivity|lia..].
Qed.

Lemma _map_json_type_to_spark_type_eq (json_snippet : json) :
  _map_json_type_to_spark_type json_snippet =
    (let value := json_snippet in
     has_type <- py_in "type" json_snippet ;;
     if has_type : bool then
       ty <- py_getitem value "type" ;;
       if eq_str ty "string" then
         t <- _convert_json_string value ;; Return (Some t)
       else if eq_str ty "boolean" then
         Return (Some BooleanType)
       else if eq_str ty "integer" then
         t <- _convert_json_int value ;; Return (Some t)
       else if eq_str ty "number" then
         Return (Some (_convert_json_number value))
       else if eq_str ty "array" then
         has_items <- py_in "items" value ;;
         if has_items : bool then
           items_schemas <- py_getitem value "items" ;;
           let items_schemas := normalize_items items_schemas in
           n <- py_len items_schemas ;;
           if (n <? 1)%nat then
             Raise (Exception_ "Expected a least one type definition in an array")
           else
             item_schemas <- py_iter items_schemas ;;
             for_each
               (fun (item_schema : json) (_ : option DataType) =>
                  item_type <- py_getitem item_schema "type" ;;
                  if eq_str item_type "object" then
                    s <- from_json_to_spark item_schema ;;
                    a <- ArrayType_init (Some (StructType (fields s))) ;;
                    Return (Some a)
                  else
                    t <- _map_json_type_to_spark_type item_schema ;;
                    a <- ArrayType_init t ;;
                    Return (Some a))
               item_schemas None
         else Return None
       else if eq_str ty "object" then
         s <- from_json_to_spark value ;;
         Return (Some (StructType (fields s)))
       else if eq_str ty "null" then
         Return (Some NullType)
       else if eq_str ty "any" then
         Return (Some StringType)
       else Raise (InvalidJSONType ty)
     else
       has_anyOf <- py_in "anyOf" value ;;
       if has_anyOf : bool then Return (Some StringType)
       else
         has_const <- py_in "const" value ;;
         if has_const : bool then Return (Some StringType)
         else Return None).
Proof.
  unfold _map_json_type_to_spark_type at 1.
  remember (depth json_snippet) as n eqn:Hn.
  simpl _map_json_type_to_spark_type_fuel. cbv zeta.
  destruct json_snippet as [| | | | | |d]; try reflexivity.
  simpl py_in. simpl py_getitem.
  destruct (dict_lookup "type" d) as [ty|] eqn:Hty; simpl; [|reflexivity].
  destruct (eq_str ty "string"); [reflexivity|].
  destruct (eq_str ty "boolean"); [reflexivity|].
  destruct (eq_str ty "integer"); [reflexivity|].
  destruct (eq_str ty "number"); [reflexivity|].
  destruct (eq_str ty "array").
  - destruct (dict_lookup "items" d) as [its|] eqn:Hits; simpl; [|reflexivity].
    pose proof (depth_dict_lookup _ _ _ Hits) as Hd.
    destruct (py_len (normalize_items its)) as [k| |]; simpl; try reflexivity.
    destruct (k <? 1)%nat; [reflexivity|].
    destruct (py_iter (normalize_items its)) as [l| |] eqn:Hl; simpl;
      try reflexivity.
    apply for_each_ext. intros item s Hin.
    pose proof (depth_py_iter _ _ _ Hl Hin) as Hi.
    destruct (py_getitem item "type") as [ity| |]; simpl; try reflexivity.
    unfold from_json_to_spark, _map_json_type_to_spark_type.
    destruct (eq_str ity "object").
    + destruct (fuel_irrelevant n (S (depth item)) item) as [_ ->];
        [reflexivity|lia..].
    + destruct (fuel_irrelevant n (S (depth item)) item) as [-> _];
        [reflexivity|lia..].
  - destruct (eq_str ty "object"); [|reflexivity].
    unfold from_json_to_spark.
    assert (1 <= depth (JDict d))%nat by (simpl; lia).
    destruct (fuel_irrelevant n (S (depth (JDict d))) (JDict d)) as [_ ->];
      [reflexivity|lia..].
Qed.

(** Neither function of the source ends in [OutOfFuel]. *)
Lemma from_json_to_spark_total (schema : json) :
  from_json_to_spark schema <> OutOfFuel.
Proof. apply fuel_enough; lia. Qed.

Lemma _map_json_type_to_spark_type_total (json_snippet : json) :
  _map_json_type_to_spark_type json_snippet <> OutOfFuel.
Proof. apply fuel_enough; lia. Qed.

(** ** Inclusive numeric range and integer widths *)

Lemma _determine_inclusive_range_dict (d : dict) (lo xlo hi xhi : option Z) :
  bound_at d "minimum" lo -> bound_at d "exclusiveMinimum" xlo ->
  bound_at d "maximum" hi -> bound_at d "exclusiveMaximum" xhi ->
  _determine_inclusive_range (JDict d)
  = Return (Range.mk (exclusive_first lo xlo) (exclusive_first hi xhi)
              (is_some (exclusive_first lo xlo)
               && is_some (exclusive_first hi xhi))).
Proof.
  unfold bound_at, _determine_inclusive_range. simpl.
  intros Hlo Hxlo Hhi Hxhi.
  destruct (dict_lookup "minimum" d);
    [destruct Hlo as (z1 & H1 & ->)|subst lo];
  (destruct (dict_lookup "exclusiveMinimum" d);
    [destruct Hxlo as (z2 & H2 & ->)|subst xlo]);
  (destruct (dict_lookup "maximum" d);
    [destruct Hhi as (z3 & H3 & ->)|subst hi]);
  (destruct (dict_lookup "exclusiveMaximum" d);
    [destruct Hxhi as (z4 & H4 & ->)|subst xhi]);
  simpl; rewrite ?H1; simpl; rewrite ?H2; simpl; rewrite ?H3; simpl;
  rewrite ?H4; reflexivity.
Qed.

Lemma bound_at_of_range (d : dict) (keyword : string) (r : Range.t) :
  In keyword ["minimum"; "exclusiveMinimum"; "maximum"; "exclusiveMaximum"] ->
  _determine_inclusive_range (JDict d) = Return r ->
  exists b, bound_at d keyword b.
Proof.
  unfold bound_at, _determine_inclusive_range. simpl. intros Hk Hr.
  destruct (dict_lookup keyword d) as [v|] eqn:Hv; [|now exists None].
  destruct (py_int v) as [z| |] eqn:Hz; [exists (Some z); now exists z| |];
    exfalso;
    (destruct Hk as [<-|[<-|[<-|[<-|[]]]]]; rewrite Hv in Hr; simpl in Hr;
     repeat match type of Hr with
       | context [dict_lookup ?k d] =>
           destruct (dict_lookup k d); simpl in Hr
       | context [py_int ?x] =>
           first [rewrite Hz in Hr | destruct (py_int x)]; simpl in Hr
       end; discriminate).
Qed.

Lemma defined_iff_both (d : dict) (r : Range.t) :
  _determine_inclusive_range (JDict d) = Return r ->
  Range.defined r = is_some (Range.min r) && is_some (Range.max r).
Proof.
  intros Hr.
  destruct (bound_at_of_range d "minimum" r) as [lo Hlo]; [simpl; auto|exact Hr|].
  destruct (bound_at_of_range d "exclusiveMinimum" r) as [xlo Hxlo];
    [simpl; auto|exact Hr|].
  destruct (bound_at_of_range d "maximum" r) as [hi Hhi]; [simpl; auto|exact Hr|].
  destruct (bound_at_of_range d "exclusiveMaximum" r) as [xhi Hxhi];
    [simpl; auto 6|exact Hr|].
  rewrite (_determine_inclusive_range_dict d lo xlo hi xhi) in Hr by assumption.
  injection Hr as <-. reflexivity.
Qed.

(** C2. The inclusive range of a node takes its minimum from [minimum]
    or, for an exclusive bound, from [exclusiveMinimum] less one, and its
    maximum from [maximum] or from [exclusiveMaximum] less one; it counts
    as defined exactly when both ends were resolved.  [lo], [xlo], [hi]
    and [xhi] are the values of the four keywords, where present. *)
Theorem inclusive_range_from_bounds (d : dict) (lo xlo hi xhi : option Z) :
  bound_at d "minimum" lo -> bound_at d "exclusiveMinimum" xlo ->
  bound_at d "maximum" hi -> bound_at d "exclusiveMaximum" xhi ->
  exists r,
    _determine_inclusive_range (JDict d) = Return r
    /\ (xlo = None -> Range.min r = lo)
    /\ (forall x, xlo = Some x -> Range.min r = Some (x - 1))
    /\ (xhi = None -> Range.max r = hi)
    /\ (forall x, xhi = Some x -> Range.max r = Some (x - 1))
    /\ (Range.defined r = true
        <-> Range.min r <> None /\ Range.max r <> None).
Proof.
  intros Hlo Hxlo Hhi Hxhi. eexists. split.
  - apply (_determine_inclusive_range_dict d lo xlo hi xhi); assumption.
  - simpl. repeat split.
    + now intros ->.
    + now intros x ->.
    + now intros ->.
    + now intros x ->.
    + destruct (exclusive_first lo xlo); [discriminate|].
      simpl in H. discriminate.
    + destruct (exclusive_first lo xlo), (exclusive_first hi xhi);
        simpl in H; discriminate.
    + intros [H1 H2].
      destruct (exclusive_first lo xlo), (exclusive_first hi xhi);
        simpl; congruence.
Qed.

(** C10. When a node carries both [minimum] and [exclusiveMinimum], the
    range's minimum is [exclusiveMinimum] less one: the exclusive keyword
    wins.  Likewise the maximum is [exclusiveMaximum] less one when both
    [maximum] and [exclusiveMaximum] are there. *)
Theorem exclusive_keyword_wins (d : dict) (lo xlo hi xhi : option Z) :
  bound_at d "minimum" lo -> bound_at d "exclusiveMinimum" xlo ->
  bound_at d "maximum" hi -> bound_at d "exclusiveMaximum" xhi ->
  exists r,
    _determine_inclusive_range (JDict d) = Return r
    /\ (forall m x, lo = Some m -> xlo = Some x -> Range.min r = Some (x - 1))
    /\ (forall m x, hi = Some m -> xhi = Some x -> Range.max r = Some (x - 1)).
Proof.
  intros Hlo Hxlo Hhi Hxhi. eexists. split.
  - apply (_determine_inclusive_range_dict d lo xlo hi xhi); assumption.
  - simpl. split; intros m x -> ->; reflexivity.
Qed.

Ltac narrowest_fit_tac :=
  split; [discriminate|];
  split; [unfold contains; simpl; first [reflexivity|lia]|];
  let t' := fresh "t'" in
  let Hn := fresh "Hn" in
  intros t' Hn; destruct t'; unfold narrower in Hn; simpl in Hn;
  try contradiction; try lia; unfold contains; simpl; lia.

(** C1. For a node of type "integer" whose inclusive range has both ends,
    the mapper returns the narrowest of [ByteType] ([-128, 127]),
    [ShortType] ([-32768, 32767]), [IntegerType]
    ([-2147483648, 2147483647]) and the default [LongType] that contains
    both ends, trying the narrow ones first; when an end is missing it
    returns [LongType]. *)
Theorem integer_width_narrowest (d : dict) (r : Range.t) :
  dict_lookup "type" d = Some (JStr "integer") ->
  _determine_inclusive_range (JDict d) = Return r ->
  exists t,
    _map_json_type_to_spark_type (JDict d) = Return (Some t)
    /\ match Range.min r, Range.max r with
       | Some lo, Some hi => narrowest_fit lo hi t
       | _, _ => t = LongType
       end.
Proof.
  intros Hty Hr. rewrite _map_json_type_to_spark_type_eq. simpl.
  rewrite Hty. simpl. unfold _convert_json_int. rewrite Hr. simpl.
  rewrite (defined_iff_both d r Hr).
  destruct (Range.min r) as [lo|], (Range.max r) as [hi|]; simpl;
    try (eexists; split; reflexivity).
  repeat match goal with
  | |- context [if ?b then _ else _] => destruct b eqn:?
  end; simpl; (eexists; split; [reflexivity|narrowest_fit_tac]).
Qed.

(** ** Structs: one field per property *)

Lemma for_each_app {A S : Type} (body : A -> S -> result S) (l1 l2 : list A) :
  forall s,
    for_each body (l1 ++ l2) s = (s' <- for_each body l1 s ;; for_each body l2 s').
Proof.
  induction l1 as [|a l1 IH]; simpl; intros s; [reflexivity|].
  destruct (body a s); simpl; [apply IH|reflexivity..].
Qed.

Lemma eq_str_true (v : json) (s : string) : eq_str v s = true <-> v = JStr s.
Proof.
  destruct v; simpl; try (split; [discriminate|intros [=]]).
  rewrite String.eqb_eq. split; [now intros ->|now intros [= ->]].
Qed.

Lemma py_in_list (key : string) (names : list json) :
  py_in key (JList names) = Return true <-> In (JStr key) names.
Proof.
  simpl. split.
  - intros [= H]. apply existsb_exists in H. destruct H as (x & Hin & Hx).
    apply eq_str_true in Hx. now subst x.
  - intros H. f_equal. apply existsb_exists. exists (JStr key).
    split; [exact H|now apply eq_str_true].
Qed.

Lemma Forall2_In_l {A B : Type} (R : A -> B -> Prop) (l1 : list A) (l2 : list B)
  (a : A) :
  Forall2 R l1 l2 -> In a l1 -> exists b, In b l2 /\ R a b.
Proof.
  induction 1 as [|x y l1 l2 Hxy _ IH]; simpl; [contradiction|].
  intros [<-|Hin].
  - exists y. split; [now left|exact Hxy].
  - destruct (IH Hin) as (b & Hb & Hab). exists b. split; [now right|exact Hab].
Qed.

Lemma from_json_to_spark_loop (schema : json) :
  from_json_to_spark schema =
    (properties <- py_getitem schema "properties" ;;
     items <- py_items properties ;;
     fields <- for_each (append_field schema) items [] ;;
     Return (StructType fields)).
Proof. rewrite from_json_to_spark_eq. reflexivity. Qed.

(** What the loop over [properties.items()] leaves in [fields]. *)
Lemma fields_loop_inv (schema : json) (props : list (string * json)) :
  forall acc fs,
    for_each (append_field schema) props acc = Return fs ->
    exists new, fs = (acc ++ new)%list /\ Forall2 (field_for schema) new props.
Proof.
  induction props as [|[key value] props IH]; simpl; intros acc fs H.
  - injection H as <-. exists []. split; [now rewrite app_nil_r|constructor].
  - destruct (_map_json_type_to_spark_type value) as [t| |] eqn:Ht;
      simpl in H; try discriminate.
    destruct (py_get schema "required" (JList [])) as [req| |] eqn:Hreq;
      simpl in H; try discriminate.
    destruct (py_in key req) as [b| |] eqn:Hb; simpl in H; try discriminate.
    destruct t as [t|]; simpl in H; try discriminate.
    apply IH in H. destruct H as (new & -> & Hnew).
    exists (mkStructField key (Some t) (if b then false else true) :: new).
    split.
    + now rewrite <- app_assoc.
    + constructor; [|exact Hnew].
      repeat split; simpl; [exact Ht|].
      exists req. split; [exact Hreq|]. rewrite Hb. now destruct b.
Qed.

Lemma fields_loop_returns (schema : json) (required : json)
  (props : list (string * json)) :
  (forall key value, In (key, value) props ->
     exists t, _map_json_type_to_spark_type value = Return (Some t)) ->
  (props <> [] ->
   py_get schema "required" (JList []) = Return required
   /\ forall key, exists b, py_in key required = Return b) ->
  forall acc, exists fs,
    for_each (append_field schema) props acc = Return fs.
Proof.
  induction props as [|[key value] props IH]; simpl; intros Hch Hreq acc.
  - now exists acc.
  - destruct (Hch key value) as [t ->]; [now left|]. simpl.
    destruct Hreq as [Hget Hin]; [discriminate|]. rewrite Hget. simpl.
    destruct (Hin key) as [b ->]. simpl.
    apply IH.
    + intros k v Hkv. apply (Hch k v). now right.
    + intros _. now split.
Qed.

Lemma py_get_required (d : dict) (names : list json) :
  required_names d names ->
  py_get (JDict d) "required" (JList []) = Return (JList names).
Proof.
  unfold required_names. simpl.
  destruct (dict_lookup "required" d); now intros ->.
Qed.

(** C3. For an object node with N >= 0 properties the struct has exactly
    one field per property, in the order in which the [properties] mapping
    yields them; an empty mapping gives a struct without fields and no
    error.  The properties are taken to map to a type each, and [required],
    where the loop reads it, to be absent or a list. *)
Theorem struct_field_per_property (d : dict) (props : list (string * json)) :
  dict_lookup "properties" d = Some (JDict props) ->
  (forall key value, In (key, value) props ->
     exists t, _map_json_type_to_spark_type value = Return (Some t)) ->
  (props <> [] -> exists names, required_names d names) ->
  exists fs,
    from_json_to_spark (JDict d) = Return (StructType fs)
    /\ map name fs = map fst props
    /\ Forall2 (fun f kv =>
                  _map_json_type_to_spark_type (snd kv) = Return (dataType f))
         fs props
    /\ (props = [] -> fs = []).
Proof.
  intros Hprops Hch Hreq.
  rewrite from_json_to_spark_loop. simpl. rewrite Hprops. simpl.
  assert (exists required,
             props <> [] ->
             py_get (JDict d) "required" (JList []) = Return required
             /\ forall key, exists b, py_in key required = Return b)
    as [required Hrequired].
  { destruct props as [|kv props].
    - exists JNone. intros H. now contradiction H.
    - destruct Hreq as [names Hnames]; [discriminate|].
      exists (JList names). intros _. split.
      + now apply py_get_required.
      + intros key. simpl. eauto. }
  destruct (fields_loop_returns (JDict d) required props) with (acc := @nil StructField)
    as [fs Hfs].
  - exact Hch.
  - exact Hrequired.
  - rewrite Hfs. simpl. exists fs. split; [reflexivity|].
    apply fields_loop_inv in Hfs. destruct Hfs as (new & -> & Hnew). simpl.
    clear - Hnew. induction Hnew as [|f kv fs props (Hname & Hty & _) _ IH].
    + repeat split; constructor.
    + destruct IH as (IH1 & IH2 & _). repeat split.
      * simpl. now rewrite Hname, IH1.
      * now constructor.
      * discriminate.
Qed.

(** C4. A field of the struct is not nullable exactly when its name is
    listed in the [required] of the node it comes from, an absent
    [required] counting as empty. *)
Theorem nullable_iff_not_required (d : dict) (names : list json)
  (fs : list StructField) :
  required_names d names ->
  from_json_to_spark (JDict d) = Return (StructType fs) ->
  forall f, In f fs -> (nullable f = false <-> In (JStr (name f)) names).
Proof.
  intros Hnames H f Hf.
  rewrite from_json_to_spark_loop in H.
  destruct (py_getitem (JDict d) "properties") as [properties| |];
    try discriminate.
  simpl in H.
  destruct (py_items properties) as [props| |]; try discriminate. simpl in H.
  destruct (for_each (append_field (JDict d)) props []) as [fs'| |] eqn:Hloop;
    try discriminate.
  injection H as ->.
  apply fields_loop_inv in Hloop. destruct Hloop as (new & -> & Hnew).
  simpl in Hf.
  destruct (Forall2_In_l _ _ _ _ Hnew Hf) as (kv & _ & Hname & _ & req & Hreq & Hin).
  rewrite (py_get_required d names Hnames) in Hreq. injection Hreq as <-.
  rewrite Hname. rewrite <- py_in_list. rewrite Hin.
  destruct (nullable f); simpl; split; congruence.
Qed.

(** ** Arrays *)

Lemma _map_array_items (d : dict) (items_schemas : json) :
  dict_lookup "type" d = Some (JStr "array") ->
  dict_lookup "items" d = Some items_schemas ->
  _map_json_type_to_spark_type (JDict d) =
    (n <- py_len (normalize_items items_schemas) ;;
     if (n <? 1)%nat then
       Raise (Exception_ "Expected a least one type definition in an array")
     else
       item_schemas <- py_iter (normalize_items items_schemas) ;;
       for_each
         (fun (item_schema : json) (_ : option DataType) =>
            t <- item_element_type item_schema ;;
            a <- ArrayType_init t ;;
            Return (Some a))
         item_schemas None).
Proof.
  intros Hty Hits. rewrite _map_json_type_to_spark_type_eq. simpl.
  rewrite Hty. simpl. rewrite Hits. simpl.
  destruct (py_len (normalize_items items_schemas)) as [n| |]; simpl;
    try reflexivity.
  destruct (n <? 1)%nat; [reflexivity|].
  destruct (py_iter (normalize_items items_schemas)) as [l| |]; simpl;
    try reflexivity.
  apply for_each_ext. intros item s _. unfold item_element_type.
  destruct (py_getitem item "type") as [ity| |]; simpl; try reflexivity.
  destruct (eq_str ity "object"); [|reflexivity].
  destruct (from_json_to_spark item); reflexivity.
Qed.

Lemma array_loop_returns (l : list json) :
  Forall (fun item => exists t, item_element_type item = Return (Some t)) l ->
  forall s, exists s',
    for_each
      (fun (item_schema : json) (_ : option DataType) =>
         t <- item_element_type item_schema ;;
            a <- ArrayType_init t ;;
            Return (Some a))
      l s = Return s'.
Proof.
  induction 1 as [|item l [t Ht] _ IH]; simpl; intros s.
  - now exists s.
  - rewrite Ht. simpl. apply IH.
Qed.

(** C5. For an array node whose list of item schemas has more than one
    entry, the mapper returns [ArrayType] of the type computed for the
    last entry: each pass of the loop overwrites what the one before
    left, nothing is merged.  The entries are taken to map to a type
    each. *)
Theorem array_keeps_last_item_type (d : dict) (init : list json) (last : json)
  (t : DataType) :
  dict_lookup "type" d = Some (JStr "array") ->
  dict_lookup "items" d = Some (JList (init ++ [last])) ->
  Forall (fun item => exists t', item_element_type item = Return (Some t')) init ->
  item_element_type last = Return (Some t) ->
  _map_json_type_to_spark_type (JDict d) = Return (Some (ArrayType (Some t))).
Proof.
  intros Hty Hits Hinit Hlast.
  rewrite (_map_array_items d _ Hty Hits). simpl.
  rewrite length_app. simpl.
  replace (List.length init + 1 <? 1)%nat with false
    by (symmetry; apply Nat.ltb_ge; lia).
  rewrite for_each_app.
  destruct (array_loop_returns init Hinit None) as [s' ->]. simpl.
  rewrite Hlast. reflexivity.
Qed.

(** ** Mapping failures *)

(** C7. A node without a [type], an [anyOf] and a [const] key makes the
    mapper return [None]: no value and no exception, and that absent
    value is what the caller receives. *)
Theorem no_keyword_returns_none (d : dict) :
  dict_lookup "type" d = None ->
  dict_lookup "anyOf" d = None ->
  dict_lookup "const" d = None ->
  _map_json_type_to_spark_type (JDict d) = Return None.
Proof.
  intros Hty Hany Hconst. rewrite _map_json_type_to_spark_type_eq. simpl.
  rewrite Hty, Hany, Hconst. reflexivity.
Qed.

(** C8. A node whose [type] is a string outside string, boolean, integer,
    number, array, object, null and any makes the mapper raise the
    "Invalid JSON type" error at once; nothing is returned. *)
Theorem unknown_type_raises (d : dict) (s : string) :
  dict_lookup "type" d = Some (JStr s) ->
  ~ In s recognized_types ->
  _map_json_type_to_spark_type (JDict d) = Raise (InvalidJSONType (JStr s)).
Proof.
  intros Hty Hnot. rewrite _map_json_type_to_spark_type_eq. simpl.
  rewrite Hty. simpl.
  repeat match goal with
  | |- context [String.eqb s ?k] =>
      destruct (String.eqb_spec s k) as [->|_];
      [exfalso; apply Hnot; simpl; tauto|]
  end.
  reflexivity.
Qed.

(** C9. An array node whose [items] key is there and whose normalized
    list of item schemas is empty makes the mapper raise the
    empty-items error. *)
Theorem empty_items_raises (d : dict) (items_schemas : json) :
  dict_lookup "type" d = Some (JStr "array") ->
  dict_lookup "items" d = Some items_schemas ->
  py_len (normalize_items items_schemas) = Return 0%nat ->
  _map_json_type_to_spark_type (JDict d)
  = Raise (Exception_ "Expected a least one type definition in an array").
Proof.
  intros Hty Hits Hlen.
  rewrite (_map_array_items d _ Hty Hits). rewrite Hlen. reflexivity.
Qed.

(** An item schema without a [type] key stops the loop with [KeyError],
    whatever else it carries. *)
Lemma item_lacking_type_key_error (d : dict) (items_schemas : json) (item : dict)
  (rest : list json) :
  dict_lookup "type" d = Some (JStr "array") ->
  dict_lookup "items" d = Some items_schemas ->
  py_iter (normalize_items items_schemas) = Return (JDict item :: rest) ->
  dict_lookup "type" item = None ->
  _map_json_type_to_spark_type (JDict d) = Raise (KeyError "type").
Proof.
  intros Hty Hits Hiter Hitem.
  rewrite (_map_array_items d _ Hty Hits). rewrite Hiter.
  assert (exists n, py_len (normalize_items items_schemas) = Return (S n))
    as [n ->].
  { destruct items_schemas; simpl in *; try discriminate.
    - destruct s; discriminate.
    - injection Hiter as ->. simpl. eauto.
    - eauto. }
  simpl. unfold item_element_type. simpl. rewrite Hitem. reflexivity.
Qed.

(** ** Dispatch on [type] *)

(** X1. A node of type "string" maps to [TimestampType] for the format
    "date-time", to [DateType] for "date" and to [StringType] for any
    other or no format; no other keyword of the node is looked at. *)
Theorem string_format_decides (d : dict) :
  dict_lookup "type" d = Some (JStr "string") ->
  exists t,
    _map_json_type_to_spark_type (JDict d) = Return (Some t)
    /\ (t = TimestampType <-> dict_lookup "format" d = Some (JStr "date-time"))
    /\ (t = DateType <-> dict_lookup "format" d = Some (JStr "date"))
    /\ (t = StringType
        <-> dict_lookup "format" d <> Some (JStr "date-time")
            /\ dict_lookup "format" d <> Some (JStr "date")).
Proof.
  intros Hty. rewrite _map_json_type_to_spark_type_eq. simpl.
  rewrite Hty. simpl. unfold _convert_json_string. simpl.
  destruct (dict_lookup "format" d) as [format|]; simpl.
  - destruct (eq_str format "date-time") eqn:E1.
    + apply eq_str_true in E1. subst format. eexists. split; [reflexivity|].
      repeat split; try discriminate; try reflexivity. intros [H _]. now elim H.
    + destruct (eq_str format "date") eqn:E2.
      * apply eq_str_true in E2. subst format. eexists. split; [reflexivity|].
        repeat split; try discriminate; try reflexivity.
        intros [_ H]. now elim H.
      * assert (format <> JStr "date-time") as N1
          by (intros H; apply eq_str_true in H; congruence).
        assert (format <> JStr "date") as N2
          by (intros H; apply eq_str_true in H; congruence).
        eexists. split; [reflexivity|].
        repeat split; try discriminate; try congruence.
  - eexists. split; [reflexivity|]. repeat split; discriminate.
Qed.

(** X2. The types "boolean", "number", "null" and "any" map to
    [BooleanType], [DoubleType], [NullType] and [StringType] whatever else
    the node carries: a "number" is never narrowed and its bounds are
    never read. *)
Theorem type_alone_decides (d : dict) (s : string) (t : DataType) :
  dict_lookup "type" d = Some (JStr s) ->
  In (s, t) [("boolean", BooleanType); ("number", DoubleType);
             ("null", NullType); ("any", StringType)] ->
  _map_json_type_to_spark_type (JDict d) = Return (Some t).
Proof.
  intros Hty Hin. rewrite _map_json_type_to_spark_type_eq. simpl.
  rewrite Hty.
  destruct Hin as [H|[H|[H|[H|[]]]]]; injection H as <- <-; reflexivity.
Qed.

(** X3. A node without a [type] key that has an [anyOf] or a [const] key
    maps to [StringType]. *)
Theorem any_of_or_const_is_string (d : dict) :
  dict_lookup "type" d = None ->
  dict_lookup "anyOf" d <> None \/ dict_lookup "const" d <> None ->
  _map_json_type_to_spark_type (JDict d) = Return (Some StringType).
Proof.
  intros Hty H. rewrite _map_json_type_to_spark_type_eq. simpl.
  rewrite Hty. simpl.
  destruct (dict_lookup "anyOf" d); simpl; [reflexivity|].
  destruct (dict_lookup "const" d); simpl; [reflexivity|].
  destruct H as [H|H]; now contradiction H.
Qed.

(** X4. A schema that is [None], a boolean or a number is no container:
    both functions raise [TypeError] on it. *)
Theorem scalar_schema_raises (v : json) :
  is_scalar v = true ->
  _map_json_type_to_spark_type v = Raise TypeError
  /\ from_json_to_spark v = Raise TypeError.
Proof.
  intros H. rewrite _map_json_type_to_spark_type_eq, from_json_to_spark_eq.
  destruct v; try discriminate; split; reflexivity.
Qed.

(** ** Objects *)

(** X5. A node without a [properties] key makes [from_json_to_spark]
    raise [KeyError], and so does the mapper on such a node of type
    "object". *)
Theorem missing_properties_raises (d : dict) :
  dict_lookup "properties" d = None ->
  from_json_to_spark (JDict d) = Raise (KeyError "properties")
  /\ (dict_lookup "type" d = Some (JStr "object") ->
      _map_json_type_to_spark_type (JDict d) = Raise (KeyError "properties")).
Proof.
  intros Hp.
  assert (from_json_to_spark (JDict d) = Raise (KeyError "properties")) as E.
  { rewrite from_json_to_spark_eq. simpl. rewrite Hp. reflexivity. }
  split; [exact E|]. intros Hty.
  rewrite _map_json_type_to_spark_type_eq. simpl. rewrite Hty. simpl.
  rewrite E. reflexivity.
Qed.

(** X6. When [properties] is there but is not a dict, [.items()] raises
    [AttributeError]. *)
Theorem properties_not_a_dict_raises (d : dict) (properties : json) :
  dict_lookup "properties" d = Some properties ->
  is_dict properties = false ->
  from_json_to_spark (JDict d) = Raise AttributeError.
Proof.
  intros Hp Hd. rewrite from_json_to_spark_eq. simpl. rewrite Hp. simpl.
  destruct properties; try reflexivity. discriminate.
Qed.

Lemma from_json_to_spark_struct (schema : json) (s : DataType) :
  from_json_to_spark schema = Return s -> s = StructType (fields s).
Proof.
  rewrite from_json_to_spark_loop. intros H.
  destruct (py_getitem schema "properties") as [properties| |];
    try discriminate.
  simpl in H. destruct (py_items properties) as [props| |]; try discriminate.
  simpl in H.
  destruct (for_each (append_field schema) props []); try discriminate.
  now injection H as <-.
Qed.

(** X7. On a node of type "object" the mapper is [from_json_to_spark]:
    the same struct when that returns one, the same exception when it
    raises. *)
Theorem object_node_is_its_struct (d : dict) :
  dict_lookup "type" d = Some (JStr "object") ->
  _map_json_type_to_spark_type (JDict d)
  = (s <- from_json_to_spark (JDict d) ;; Return (Some s)).
Proof.
  intros Hty. rewrite _map_json_type_to_spark_type_eq. simpl.
  rewrite Hty. simpl.
  destruct (from_json_to_spark (JDict d)) as [s| |] eqn:E; try reflexivity.
  simpl. now rewrite <- (from_json_to_spark_struct _ _ E).
Qed.

(** X8. [from_json_to_spark] reads [properties] and [required] only: two
    nodes that agree on these two keys give the same result, whatever
    their [type] and other keys are. *)
Theorem struct_reads_two_keys (d d' : dict) :
  dict_lookup "properties" d = dict_lookup "properties" d' ->
  dict_lookup "required" d = dict_lookup "required" d' ->
  from_json_to_spark (JDict d) = from_json_to_spark (JDict d').
Proof.
  intros Hp Hr. rewrite !from_json_to_spark_loop. simpl. rewrite Hp.
  destruct (dict_lookup "properties" d') as [properties|]; [|reflexivity].
  simpl. destruct (py_items properties) as [props| |]; try reflexivity.
  simpl. erewrite for_each_ext; [reflexivity|].
  intros [key value] acc _. unfold append_field. simpl. now rewrite Hr.
Qed.

(** X9. The exception a property's schema raises is the exception of
    the whole struct, when the properties before it map to a type each:
    the loop stops there and the properties after it are never mapped. *)
Theorem property_error_propagates (d : dict) (pre post : list (string * json))
  (key : string) (value : json) (e : exn) :
  dict_lookup "properties" d = Some (JDict (pre ++ (key, value) :: post)) ->
  (forall k v, In (k, v) pre ->
     exists t, _map_json_type_to_spark_type v = Return (Some t)) ->
  (pre <> [] -> exists names, required_names d names) ->
  _map_json_type_to_spark_type value = Raise e ->
  from_json_to_spark (JDict d) = Raise e.
Proof.
  intros Hp Hpre Hreq He.
  rewrite from_json_to_spark_loop. simpl. rewrite Hp. simpl.
  rewrite for_each_app.
  assert (exists required,
             pre <> [] ->
             py_get (JDict d) "required" (JList []) = Return required
             /\ forall k, exists b, py_in k required = Return b)
    as [required Hrequired].
  { destruct pre as [|kv pre].
    - exists JNone. intros H. now contradiction H.
    - destruct Hreq as [names Hnames]; [discriminate|].
      exists (JList names). intros _. split.
      + now apply py_get_required.
      + intros k. simpl. eauto. }
  destruct (fields_loop_returns (JDict d) required pre) with (acc := @nil StructField)
    as [fs ->].
  - exact Hpre.
  - exact Hrequired.
  - simpl. rewrite He. reflexivity.
Qed.

(** X10. A [required] that is [None], a boolean or a number makes the
    struct of a node with at least one property raise [TypeError], at the
    first property, once that property's type is computed. *)
Theorem required_not_iterable_raises (d : dict) (key : string) (value : json)
  (rest : list (string * json)) (required : json) (t : option DataType) :
  dict_lookup "properties" d = Some (JDict ((key, value) :: rest)) ->
  _map_json_type_to_spark_type value = Return t ->
  dict_lookup "required" d = Some required ->
  is_scalar required = true ->
  from_json_to_spark (JDict d) = Raise TypeError.
Proof.
  intros Hp Ht Hr Hs.
  rewrite from_json_to_spark_loop. simpl. rewrite Hp. simpl.
  rewrite Ht. simpl. rewrite Hr. simpl.
  destruct required; try discriminate; reflexivity.
Qed.

(** ** More on arrays *)

Lemma chars_length (s : string) : List.length (chars s) = String.length s.
Proof.
  unfold chars. rewrite length_map.
  induction s as [|c s IH]; simpl; [reflexivity|now rewrite IH].
Qed.

Lemma py_len_py_iter (v : json) (n : nat) (l : list json) :
  py_len v = Return n -> py_iter v = Return l -> List.length l = n.
Proof.
  destruct v; simpl; try discriminate; intros [= <-] [= <-].
  - apply chars_length.
  - reflexivity.
  - apply length_map.
Qed.

Lemma array_loop_shape (l : list json) :
  forall s s',
    for_each
      (fun (item_schema : json) (_ : option DataType) =>
         t <- item_element_type item_schema ;;
            a <- ArrayType_init t ;;
            Return (Some a))
      l s = Return s' ->
    (l = [] /\ s' = s) \/ exists e, s' = Some (ArrayType e).
Proof.
  induction l as [|item l IH]; simpl; intros s s' H.
  - left. split; [reflexivity|congruence].
  - right. destruct (item_element_type item) as [t| |]; try discriminate.
    simpl in H. destruct t as [t|]; simpl in H; try discriminate.
    destruct (IH _ _ H) as [[_ ->]|H']; [now exists (Some t)|exact H'].
Qed.

(** X11. What the mapper returns for a node of type "array" is [None]
    exactly when the node has no [items] key, and an [ArrayType]
    otherwise. *)
Theorem array_result_shape (d : dict) (o : option DataType) :
  dict_lookup "type" d = Some (JStr "array") ->
  _map_json_type_to_spark_type (JDict d) = Return o ->
  (o = None <-> dict_lookup "items" d = None)
  /\ (forall t, o = Some t -> exists e, t = ArrayType e).
Proof.
  intros Hty H.
  destruct (dict_lookup "items" d) as [items_schemas|] eqn:Hits.
  - rewrite (_map_array_items d _ Hty Hits) in H.
    destruct (py_len (normalize_items items_schemas)) as [n| |] eqn:Hn;
      try discriminate.
    simpl in H. destruct (n <? 1)%nat eqn:Hlt; [discriminate|].
    apply Nat.ltb_ge in Hlt.
    destruct (py_iter (normalize_items items_schemas)) as [l| |] eqn:Hl;
      try discriminate.
    simpl in H. pose proof (py_len_py_iter _ _ _ Hn Hl) as Hlen.
    destruct (array_loop_shape _ _ _ H) as [[-> _]|[e ->]].
    + simpl in Hlen. lia.
    + split; [split; discriminate|]. intros t [= <-]. now exists e.
  - rewrite _map_json_type_to_spark_type_eq in H. simpl in H.
    rewrite Hty in H. simpl in H. rewrite Hits in H. simpl in H.
    injection H as <-. split; [now split|discriminate].
Qed.

(** X12. A single item schema and the one-element list of it give the
    same result. *)
Theorem single_item_as_list (d d' : dict) (item : dict) :
  dict_lookup "type" d = Some (JStr "array") ->
  dict_lookup "type" d' = Some (JStr "array") ->
  dict_lookup "items" d = Some (JDict item) ->
  dict_lookup "items" d' = Some (JList [JDict item]) ->
  _map_json_type_to_spark_type (JDict d)
  = _map_json_type_to_spark_type (JDict d').
Proof.
  intros Hty Hty' Hits Hits'.
  rewrite (_map_array_items d _ Hty Hits), (_map_array_items d' _ Hty' Hits').
  reflexivity.
Qed.

(** X13. The exception an item schema raises is the exception of the
    whole array, when the items before it map to a type each; what the
    items after it would give, the last one included, plays no part. *)
Theorem item_error_propagates (d : dict) (pre post : list json) (item : json)
  (e : exn) :
  dict_lookup "type" d = Some (JStr "array") ->
  dict_lookup "items" d = Some (JList (pre ++ item :: post)) ->
  Forall (fun i => exists t, item_element_type i = Return (Some t)) pre ->
  item_element_type item = Raise e ->
  _map_json_type_to_spark_type (JDict d) = Raise e.
Proof.
  intros Hty Hits Hpre He.
  rewrite (_map_array_items d _ Hty Hits). simpl.
  rewrite length_app. simpl.
  replace (List.length pre + S (List.length post) <? 1)%nat with false
    by (symmetry; apply Nat.ltb_ge; lia).
  rewrite for_each_app.
  destruct (array_loop_returns pre Hpre None) as [s' ->]. simpl.
  rewrite He. reflexivity.
Qed.

(** X14. For an item schema that has a [type] key the element type of the
    loop is what the mapper gives for the item: the loop's own branch for
    "object" changes nothing. *)
Theorem item_with_type_maps_alike (item : dict) (ty : json) :
  dict_lookup "type" item = Some ty ->
  item_element_type (JDict item) = _map_json_type_to_spark_type (JDict item).
Proof.
  intros Hty. unfold item_element_type. simpl. rewrite Hty. simpl.
  destruct (eq_str ty "object") eqn:E; [|reflexivity].
  apply eq_str_true in E. subst ty.
  rewrite (_map_json_type_to_spark_type_eq (JDict item)). simpl.
  rewrite Hty. reflexivity.
Qed.

(** ** More on integers *)

Lemma integer_node_width (d : dict) (r : Range.t) :
  dict_lookup "type" d = Some (JStr "integer") ->
  _determine_inclusive_range (JDict d) = Return r ->
  _map_json_type_to_spark_type (JDict d)
  = Return (Some (match Range.min r, Range.max r with
                  | Some lo, Some hi => width_for lo hi
                  | _, _ => LongType
                  end)).
Proof.
  intros Hty Hr. rewrite _map_json_type_to_spark_type_eq. simpl.
  rewrite Hty. simpl. unfold _convert_json_int. rewrite Hr. simpl.
  rewrite (defined_iff_both d r Hr).
  destruct (Range.min r) as [lo|], (Range.max r) as [hi|]; simpl;
    try reflexivity.
  unfold width_for.
  repeat match goal with
  | |- context [if ?b then _ else _] => destruct b eqn:?
  end; simpl; try reflexivity; exfalso; lia.
Qed.

Lemma integer_node_range (d : dict) (o : option DataType) :
  dict_lookup "type" d = Some (JStr "integer") ->
  _map_json_type_to_spark_type (JDict d) = Return o ->
  exists r, _determine_inclusive_range (JDict d) = Return r.
Proof.
  intros Hty H. rewrite _map_json_type_to_spark_type_eq in H. simpl in H.
  rewrite Hty in H. simpl in H. unfold _convert_json_int in H.
  destruct (_determine_inclusive_range (JDict d)) as [r| |]; try discriminate.
  now exists r.
Qed.

Lemma bounds_convert_bound_at (d : dict) (keyword : string) :
  bounds_convert d -> In keyword bound_keywords -> exists b, bound_at d keyword b.
Proof.
  intros Hc Hin. unfold bound_at.
  destruct (dict_lookup keyword d) as [v|] eqn:Hv; [|now exists None].
  destruct (Hc keyword v Hin Hv) as [z Hz]. exists (Some z). now exists z.
Qed.

(** X15. A node of type "integer" maps to a type exactly when every bound
    keyword it carries converts under [int]; otherwise the mapper
    raises. *)
Theorem integer_returns_iff_bounds_convert (d : dict) :
  dict_lookup "type" d = Some (JStr "integer") ->
  (exists t, _map_json_type_to_spark_type (JDict d) = Return (Some t))
  <-> bounds_convert d.
Proof.
  intros Hty. split.
  - intros [t Ht]. destruct (integer_node_range d _ Hty Ht) as [r Hr].
    intros keyword v Hin Hv.
    destruct (bound_at_of_range d keyword r Hin Hr) as [b Hb].
    unfold bound_at in Hb. rewrite Hv in Hb. destruct Hb as (z & Hz & _).
    now exists z.
  - intros Hc.
    destruct (bounds_convert_bound_at d "minimum" Hc) as [lo Hlo];
      [simpl; auto|].
    destruct (bounds_convert_bound_at d "exclusiveMinimum" Hc) as [xlo Hxlo];
      [simpl; auto|].
    destruct (bounds_convert_bound_at d "maximum" Hc) as [hi Hhi];
      [simpl; auto|].
    destruct (bounds_convert_bound_at d "exclusiveMaximum" Hc) as [xhi Hxhi];
      [simpl; auto 6|].
    eexists.
    apply (integer_node_width d _ Hty
             (_determine_inclusive_range_dict d lo xlo hi xhi Hlo Hxlo Hhi Hxhi)).
Qed.

(** X16. Of two nodes of type "integer" with both ends defined, the one
    whose range lies inside the other's never gets the wider type. *)
Theorem wider_range_never_narrower (d d' : dict) (r r' : Range.t)
  (lo hi lo' hi' : Z) :
  dict_lookup "type" d = Some (JStr "integer") ->
  dict_lookup "type" d' = Some (JStr "integer") ->
  _determine_inclusive_range (JDict d) = Return r ->
  _determine_inclusive_range (JDict d') = Return r' ->
  Range.min r = Some lo -> Range.max r = Some hi ->
  Range.min r' = Some lo' -> Range.max r' = Some hi' ->
  lo' <= lo <= hi' -> lo' <= hi <= hi' ->
  exists t t',
    _map_json_type_to_spark_type (JDict d) = Return (Some t)
    /\ _map_json_type_to_spark_type (JDict d') = Return (Some t')
    /\ ~ narrower t' t.
Proof.
  intros Hty Hty' Hr Hr' Hlo Hhi Hlo' Hhi' H1 H2.
  exists (width_for lo hi), (width_for lo' hi').
  rewrite (integer_node_width d r Hty Hr), (integer_node_width d' r' Hty' Hr').
  rewrite Hlo, Hhi, Hlo', Hhi'. repeat split.
  unfold width_for.
  repeat match goal with
  | |- context [if ?b then _ else _] => destruct b eqn:?
  end; unfold narrower; simpl; lia.
Qed.

(** X17. For a node of type "integer" whose bound keywords are integers,
    the type the mapper picks holds every integer the bounds allow: such
    an integer lies in the range of [ByteType], [ShortType] or
    [IntegerType] when that is the type picked. *)
Theorem integer_type_holds_allowed (d : dict) (n : Z) :
  dict_lookup "type" d = Some (JStr "integer") ->
  integer_bounds d ->
  allows d n ->
  exists t,
    _map_json_type_to_spark_type (JDict d) = Return (Some t)
    /\ match width_range t with
       | Some (a, b) => a <= n <= b
       | None => t = LongType
       end.
Proof.
  intros Hty Hint (Hmin & Hxmin & Hmax & Hxmax).
  assert (forall keyword, In keyword bound_keywords ->
            exists b, bound_at d keyword b
                      /\ forall z, b = Some z ->
                                   dict_lookup keyword d = Some (JInt z)) as Hb.
  { intros keyword Hin. unfold bound_at.
    destruct (dict_lookup keyword d) as [v|] eqn:Hv.
    - destruct (Hint keyword v Hin Hv) as [z ->]. exists (Some z). split.
      + now exists z.
      + now intros z' [= <-].
    - exists None. split; [reflexivity|discriminate]. }
  destruct (Hb "minimum") as (lo & Hlo & Elo); [simpl; auto|].
  destruct (Hb "exclusiveMinimum") as (xlo & Hxlo & Exlo); [simpl; auto|].
  destruct (Hb "maximum") as (hi & Hhi & Ehi); [simpl; auto|].
  destruct (Hb "exclusiveMaximum") as (xhi & Hxhi & Exhi); [simpl; auto 6|].
  eexists. split.
  - apply (integer_node_width d _ Hty
             (_determine_inclusive_range_dict d lo xlo hi xhi Hlo Hxlo Hhi Hxhi)).
  - simpl.
    assert (forall z, exclusive_first lo xlo = Some z -> z <= n) as Hlow.
    { destruct xlo as [x|]; simpl.
      - intros z [= <-]. specialize (Hxmin x (Exlo x eq_refl)). lia.
      - intros z Hz. apply Hmin, Elo, Hz. }
    assert (forall z, exclusive_first hi xhi = Some z -> n <= z) as Hhigh.
    { destruct xhi as [x|]; simpl.
      - intros z [= <-]. specialize (Hxmax x (Exhi x eq_refl)). lia.
      - intros z Hz. apply Hmax, Ehi, Hz. }
    destruct (exclusive_first lo xlo) as [l|]; [|reflexivity].
    destruct (exclusive_first hi xhi) as [h|]; [|reflexivity].
    specialize (Hlow l eq_refl). specialize (Hhigh h eq_refl).
    unfold width_for.
    repeat match goal with
    | |- context [if ?b then _ else _] => destruct b eqn:?
    end; simpl; try reflexivity; lia.
Qed.

(** ** What the constructors' assertions give *)

Lemma complete_fields (s : DataType) :
  complete s = true -> complete (StructType (fields s)) = true.
Proof. destruct s; simpl; intros H; try reflexivity. exact H. Qed.

Lemma _convert_json_string_complete (value : json) (t : DataType) :
  _convert_json_string value = Return t -> complete t = true.
Proof.
  unfold _convert_json_string. intros H.
  destruct (py_in "format" value) as [[|]| |]; simpl in H; try discriminate.
  - destruct (py_getitem value "format") as [format| |]; simpl in H;
      try discriminate.
    destruct (eq_str format "date-time"); [now injection H as <-|].
    destruct (eq_str format "date"); now injection H as <-.
  - now injection H as <-.
Qed.

Lemma _convert_json_int_complete (value : json) (t : DataType) :
  _convert_json_int value = Return t -> complete t = true.
Proof.
  unfold _convert_json_int. intros H.
  destruct (_determine_inclusive_range value) as [r| |]; simpl in H;
    try discriminate.
  repeat match type of H with
  | context [if ?b then _ else _] => destruct b
  end; now injection H as <-.
Qed.

Lemma for_each_inv {A S : Type} (P : S -> Prop) (body : A -> S -> result S)
  (l : list A) :
  (forall a s s', In a l -> P s -> body a s = Return s' -> P s') ->
  forall s s', P s -> for_each body l s = Return s' -> P s'.
Proof.
  induction l as [|a l IH]; simpl; intros Hbody s s' Hs H.
  - now injection H as <-.
  - destruct (body a s) as [s1| |] eqn:Hb; simpl in H; try discriminate.
    apply (IH (fun a' x x' Hin => Hbody a' x x' (or_intror Hin)) s1 s');
      [|exact H].
    apply (Hbody a s s1); [now left|exact Hs|exact Hb].
Qed.

Lemma fuel_complete (fuel : nat) :
  forall v : json,
    (forall t, _map_json_type_to_spark_type_fuel fuel v = Return (Some t) ->
               complete t = true)
    /\ (forall s, from_json_to_spark_fuel fuel v = Return s ->
                  complete s = true).
Proof.
  induction fuel as [|fuel IH]; intros v; split; try discriminate.
  - intros t H. simpl in H.
    destruct (py_in "type" v) as [[|]| |]; simpl in H; try discriminate.
    + destruct (py_getitem v "type") as [ty| |]; simpl in H; try discriminate.
      destruct (eq_str ty "string").
      { destruct (_convert_json_string v) as [t'| |] eqn:E; simpl in H;
          try discriminate.
        injection H as <-. now apply (_convert_json_string_complete v). }
      destruct (eq_str ty "boolean"); [now injection H as <-|].
      destruct (eq_str ty "integer").
      { destruct (_convert_json_int v) as [t'| |] eqn:E; simpl in H;
          try discriminate.
        injection H as <-. now apply (_convert_json_int_complete v). }
      destruct (eq_str ty "number"); [now injection H as <-|].
      destruct (eq_str ty "array").
      { destruct (py_in "items" v) as [[|]| |]; simpl in H; try discriminate.
        destruct (py_getitem v "items") as [its| |]; simpl in H;
          try discriminate.
        destruct (py_len (normalize_items its)) as [n| |]; simpl in H;
          try discriminate.
        destruct (n <? 1)%nat; [discriminate|].
        destruct (py_iter (normalize_items its)) as [l| |]; simpl in H;
          try discriminate.
        refine (for_each_inv
                  (fun o => forall x, o = Some x -> complete x = true)
                  _ l _ None (Some t) _ H t eq_refl); [|discriminate].
        intros item o o' _ _ Hb x ->.
        destruct (py_getitem item "type") as [ity| |]; simpl in Hb;
          try discriminate.
        destruct (eq_str ity "object").
        - destruct (from_json_to_spark_fuel fuel item) as [st| |] eqn:E;
            simpl in Hb; try discriminate.
          injection Hb as <-.
          change (complete (StructType (fields st)) = true).
          apply (complete_fields st). exact (proj2 (IH item) st E).
        - destruct (_map_json_type_to_spark_type_fuel fuel item)
            as [[e|]| |] eqn:E; simpl in Hb; try discriminate.
          injection Hb as <-.
          change (complete e = true). exact (proj1 (IH item) e E). }
      destruct (eq_str ty "object").
      { destruct (from_json_to_spark_fuel fuel v) as [st| |] eqn:E;
          simpl in H; try discriminate.
        injection H as <-. apply complete_fields. exact (proj2 (IH v) st E). }
      destruct (eq_str ty "null"); [now injection H as <-|].
      destruct (eq_str ty "any"); [now injection H as <-|discriminate].
    + destruct (py_in "anyOf" v) as [[|]| |]; simpl in H; try discriminate.
      * now injection H as <-.
      * destruct (py_in "const" v) as [[|]| |]; simpl in H; try discriminate.
        now injection H as <-.
  - intros st H. simpl in H.
    destruct (py_getitem v "properties") as [properties| |]; simpl in H;
      try discriminate.
    destruct (py_items properties) as [items| |]; simpl in H; try discriminate.
    match type of H with
    | context [for_each ?body items []] =>
        destruct (for_each body items []) as [fs| |] eqn:Hloop
    end; simpl in H; try discriminate.
    injection H as <-.
    refine (for_each_inv (fun fs => complete (StructType fs) = true)
              _ items _ [] fs _ Hloop); [|reflexivity].
    intros [key value] acc acc' _ Hacc Hb.
    destruct (_map_json_type_to_spark_type_fuel fuel value) as [[t|]| |] eqn:E;
      simpl in Hb; try discriminate.
    + destruct (py_get v "required" (JList [])) as [req| |]; simpl in Hb;
        try discriminate.
      destruct (py_in key req) as [b| |]; simpl in Hb; try discriminate.
      injection Hb as <-. simpl in *. rewrite forallb_app, Hacc. simpl.
      rewrite (proj1 (IH value) t E). reflexivity.
    + destruct (py_get v "required" (JList [])) as [req| |]; simpl in Hb;
        try discriminate.
      destruct (py_in key req) as [b| |]; simpl in Hb; discriminate.
Qed.

(** X18. A type the mapper or [from_json_to_spark] returns has a type in
    every element and field slot, at every depth: a [None] met on the way
    fails the assertion of a pyspark constructor instead. *)
Theorem returned_types_complete (v : json) (t : DataType) :
  _map_json_type_to_spark_type v = Return (Some t)
  \/ from_json_to_spark v = Return t ->
  complete t = true.
Proof.
  intros [H|H].
  - exact (proj1 (fuel_complete _ v) t H).
  - exact (proj2 (fuel_complete _ v) t H).
Qed.

(** X19. A property whose schema maps to [None] makes the struct raise
    [AssertionError], when the properties before it map to a type each
    and [required] is absent or a list. *)
Theorem property_without_type_asserts (d : dict)
  (pre post : list (string * json)) (key : string) (value : json) :
  dict_lookup "properties" d = Some (JDict (pre ++ (key, value) :: post)) ->
  (forall k v, In (k, v) pre ->
     exists t, _map_json_type_to_spark_type v = Return (Some t)) ->
  (exists names, required_names d names) ->
  _map_json_type_to_spark_type value = Return None ->
  from_json_to_spark (JDict d) = Raise AssertionError.
Proof.
  intros Hp Hpre [names Hnames] Hnone.
  rewrite from_json_to_spark_loop. simpl. rewrite Hp. simpl.
  rewrite for_each_app.
  destruct (fields_loop_returns (JDict d) (JList names) pre)
    with (acc := @nil StructField) as [fs ->].
  - exact Hpre.
  - intros _. split; [now apply py_get_required|].
    intros k. simpl. eauto.
  - simpl. rewrite Hnone. simpl. unfold required_names in Hnames.
    destruct (dict_lookup "required" d); subst; reflexivity.
Qed.

(** X20. An item schema that maps to [None] makes the array raise
    [AssertionError], when the items before it map to a type each. *)
Theorem item_without_type_asserts (d : dict) (pre post : list json)
  (item : json) :
  dict_lookup "type" d = Some (JStr "array") ->
  dict_lookup "items" d = Some (JList (pre ++ item :: post)) ->
  Forall (fun i => exists t, item_element_type i = Return (Some t)) pre ->
  item_element_type item = Return None ->
  _map_json_type_to_spark_type (JDict d) = Raise AssertionError.
Proof.
  intros Hty Hits Hpre Hnone.
  rewrite (_map_array_items d _ Hty Hits). simpl.
  rewrite length_app. simpl.
  replace (List.length pre + S (List.length post) <? 1)%nat with false
    by (symmetry; apply Nat.ltb_ge; lia).
  rewrite for_each_app.
  destruct (array_loop_returns pre Hpre None) as [s' ->]. simpl.
  rewrite Hnone. reflexivity.
Qed.

End Mapper.

(** ** The theorems at the sample schemas *)

Lemma integer_width_narrowest_witness :
  exists t,
    _map_json_type_to_spark_type decimal_int (JDict Sample.small_int)
    = Return (Some t)
    /\ narrowest_fit (-129) 127 t.
Proof.
  exact (integer_width_narrowest decimal_int Sample.small_int
           (Range.mk (Some (-129)) (Some 127) true) eq_refl eq_refl).
Defined.

Lemma inclusive_range_from_bounds_witness :
  exists r,
    _determine_inclusive_range decimal_int (JDict Sample.half_open) = Return r
    /\ (@None Z = None -> Range.min r = Some 0)
    /\ (forall x, @None Z = Some x -> Range.min r = Some (x - 1))
    /\ (Some 128 = None -> Range.max r = None)
    /\ (forall x, Some 128 = Some x -> Range.max r = Some (x - 1))
    /\ (Range.defined r = true
        <-> Range.min r <> None /\ Range.max r <> None).
Proof.
  apply (inclusive_range_from_bounds decimal_int Sample.half_open
           (Some 0) None None (Some 128)).
  - exists 0. split; reflexivity.
  - reflexivity.
  - reflexivity.
  - exists 128. split; reflexivity.
Defined.

Lemma exclusive_keyword_wins_witness :
  exists r,
    _determine_inclusive_range decimal_int (JDict Sample.both_kinds) = Return r
    /\ (forall m x, Some 0 = Some m -> Some 10 = Some x ->
        Range.min r = Some (x - 1))
    /\ (forall m x, Some 100 = Some m -> Some 50 = Some x ->
        Range.max r = Some (x - 1)).
Proof.
  apply (exclusive_keyword_wins decimal_int Sample.both_kinds
           (Some 0) (Some 10) (Some 100) (Some 50)).
  - exists 0. split; reflexivity.
  - exists 10. split; reflexivity.
  - exists 100. split; reflexivity.
  - exists 50. split; reflexivity.
Defined.

Lemma struct_field_per_property_witness :
  exists fs,
    from_json_to_spark decimal_int (JDict Sample.person) = Return (StructType fs)
    /\ map name fs = ["id"; "name"; "born"]
    /\ Forall2 (fun f kv =>
                  _map_json_type_to_spark_type decimal_int (snd kv)
                  = Return (dataType f))
         fs Sample.person_properties
    /\ (Sample.person_properties = [] -> fs = []).
Proof.
  apply (struct_field_per_property decimal_int Sample.person
           Sample.person_properties).
  - reflexivity.
  - intros key value [H|[H|[H|[]]]]; injection H as <- <-;
      eexists; reflexivity.
  - intros _. exists [JStr "id"; JStr "name"]. reflexivity.
Defined.

Lemma nullable_iff_not_required_witness :
  nullable (mkStructField "id" (Some ByteType) false) = false
  <-> In (JStr "id") [JStr "id"; JStr "name"].
Proof.
  apply (nullable_iff_not_required decimal_int Sample.person
           [JStr "id"; JStr "name"] Sample.person_fields).
  - reflexivity.
  - reflexivity.
  - simpl. auto.
Defined.

Lemma array_keeps_last_item_type_witness :
  _map_json_type_to_spark_type decimal_int (JDict Sample.two_items)
  = Return (Some (ArrayType (Some LongType))).
Proof.
  apply (array_keeps_last_item_type decimal_int Sample.two_items
           [JDict [("type", JStr "string")]] (JDict [("type", JStr "integer")])
           LongType).
  - reflexivity.
  - reflexivity.
  - constructor; [|constructor]. exists StringType. reflexivity.
  - reflexivity.
Defined.

Lemma no_keyword_returns_none_witness :
  _map_json_type_to_spark_type decimal_int (JDict Sample.bare) = Return None.
Proof.
  apply (no_keyword_returns_none decimal_int Sample.bare); reflexivity.
Defined.

Lemma unknown_type_raises_witness :
  _map_json_type_to_spark_type decimal_int (JDict Sample.frobnicate)
  = Raise (InvalidJSONType (JStr "frobnicate")).
Proof.
  apply (unknown_type_raises decimal_int Sample.frobnicate "frobnicate").
  - reflexivity.
  - simpl. intros H.
    repeat (destruct H as [H|H]; [discriminate H|]). exact H.
Defined.

Lemma empty_items_raises_witness :
  _map_json_type_to_spark_type decimal_int (JDict Sample.no_items)
  = Raise (Exception_ "Expected a least one type definition in an array").
Proof.
  apply (empty_items_raises decimal_int Sample.no_items (JList []));
    reflexivity.
Defined.

(** C6. An array item that has no [type] key but has [anyOf] does not
    become a string element: the loop subscripts the item with "type"
    before it hands it to the mapper, and that raises [KeyError].  The
    same node maps to [StringType] on its own and as a property. *)
Theorem array_item_without_type_raises :
  _map_json_type_to_spark_type decimal_int (JDict Sample.array_of_any_of)
  = Raise (KeyError "type")
  /\ _map_json_type_to_spark_type decimal_int (JDict Sample.any_of)
     = Return (Some StringType)
  /\ from_json_to_spark decimal_int (JDict Sample.property_any_of)
     = Return (StructType [mkStructField "tags" (Some StringType) true]).
Proof. repeat split; vm_compute; reflexivity. Qed.

(** ** Further sample runs *)

Example integer_narrowing_boundaries :
  _map_json_type_to_spark_type decimal_int
    (JDict [("type", JStr "integer"); ("minimum", JInt (-128));
            ("maximum", JInt 127)]) = Return (Some ByteType)
  /\ _map_json_type_to_spark_type decimal_int (JDict Sample.small_int)
     = Return (Some ShortType)
  /\ _map_json_type_to_spark_type decimal_int
       (JDict [("type", JStr "integer"); ("minimum", JInt 0);
               ("maximum", JInt 2147483647)]) = Return (Some IntegerType)
  /\ _map_json_type_to_spark_type decimal_int
       (JDict [("type", JStr "integer")]) = Return (Some LongType)
  /\ _map_json_type_to_spark_type decimal_int
       (JDict [("type", JStr "integer"); ("maximum", JInt 5)])
     = Return (Some LongType).
Proof. repeat split; vm_compute; reflexivity. Qed.

Example string_formats :
  _map_json_type_to_spark_type decimal_int (JDict [("type", JStr "string")])
  = Return (Some StringType)
  /\ _map_json_type_to_spark_type decimal_int
       (JDict [("type", JStr "string"); ("format", JStr "date")])
     = Return (Some DateType)
  /\ _map_json_type_to_spark_type decimal_int
       (JDict [("type", JStr "string"); ("format", JStr "date-time")])
     = Return (Some TimestampType)
  /\ _map_json_type_to_spark_type decimal_int
       (JDict [("type", JStr "string"); ("format", JStr "unknown-x")])
     = Return (Some StringType).
Proof. repeat split; vm_compute; reflexivity. Qed.

Example nested_struct :
  _map_json_type_to_spark_type decimal_int
    (JDict [("type", JStr "object");
            ("properties",
             JDict [("a", JDict [("type", JStr "object");
                                 ("properties",
                                  JDict [("b", JDict [("type", JStr "boolean")])]);
                                 ("required", JList [JStr "b"])])])])
  = Return (Some (StructType
      [mkStructField "a"
         (Some (StructType [mkStructField "b" (Some BooleanType) false]))
         true])).
Proof. vm_compute. reflexivity. Qed.

Example single_item_is_one_element_list :
  _map_json_type_to_spark_type decimal_int
    (JDict [("type", JStr "array"); ("items", JDict [("type", JStr "integer")])])
  = Return (Some (ArrayType (Some LongType)))
  /\ _map_json_type_to_spark_type decimal_int
       (JDict [("type", JStr "array");
               ("items", JList [JDict [("type", JStr "integer")]])])
     = Return (Some (ArrayType (Some LongType))).
Proof. repeat split; vm_compute; reflexivity. Qed.

(** [int] truncates a float bound towards zero: -2.5 gives -2. *)
Example float_bound_truncates :
  _determine_inclusive_range decimal_int
    (JDict [("minimum", JFloat (S754_finite true 5 (-1)));
            ("exclusiveMaximum", JStr "129")])
  = Return (Range.mk (Some (-2)) (Some 128) true).
Proof. vm_compute. reflexivity. Qed.

(** ** The further theorems at the sample schemas *)

Lemma string_format_decides_witness :
  exists t,
    _map_json_type_to_spark_type decimal_int (JDict Sample.timestamp)
    = Return (Some t)
    /\ (t = TimestampType
        <-> dict_lookup "format" Sample.timestamp = Some (JStr "date-time"))
    /\ (t = DateType
        <-> dict_lookup "format" Sample.timestamp = Some (JStr "date"))
    /\ (t = StringType
        <-> dict_lookup "format" Sample.timestamp <> Some (JStr "date-time")
            /\ dict_lookup "format" Sample.timestamp <> Some (JStr "date")).
Proof.
  apply (string_format_decides decimal_int Sample.timestamp). reflexivity.
Defined.

Lemma type_alone_decides_witness :
  _map_json_type_to_spark_type decimal_int (JDict Sample.number)
  = Return (Some DoubleType).
Proof.
  apply (type_alone_decides decimal_int Sample.number "number" DoubleType).
  - reflexivity.
  - simpl. auto.
Defined.

Lemma any_of_or_const_is_string_witness :
  _map_json_type_to_spark_type decimal_int (JDict Sample.const_42)
  = Return (Some StringType).
Proof.
  apply (any_of_or_const_is_string decimal_int Sample.const_42).
  - reflexivity.
  - right. discriminate.
Defined.

Lemma scalar_schema_raises_witness :
  _map_json_type_to_spark_type decimal_int (JBool true) = Raise TypeError
  /\ from_json_to_spark decimal_int (JBool true) = Raise TypeError.
Proof.
  apply (scalar_schema_raises decimal_int (JBool true)). reflexivity.
Defined.

Lemma missing_properties_raises_witness :
  from_json_to_spark decimal_int (JDict Sample.no_properties)
  = Raise (KeyError "properties")
  /\ (dict_lookup "type" Sample.no_properties = Some (JStr "object") ->
      _map_json_type_to_spark_type decimal_int (JDict Sample.no_properties)
      = Raise (KeyError "properties")).
Proof.
  apply (missing_properties_raises decimal_int Sample.no_properties).
  reflexivity.
Defined.

Lemma properties_not_a_dict_raises_witness :
  from_json_to_spark decimal_int (JDict Sample.listed_properties)
  = Raise AttributeError.
Proof.
  apply (properties_not_a_dict_raises decimal_int Sample.listed_properties
           (JList [JDict [("type", JStr "string")]])); reflexivity.
Defined.

Lemma object_node_is_its_struct_witness :
  _map_json_type_to_spark_type decimal_int (JDict Sample.person)
  = (s <- from_json_to_spark decimal_int (JDict Sample.person) ;;
     Return (Some s)).
Proof.
  apply (object_node_is_its_struct decimal_int Sample.person). reflexivity.
Defined.

Lemma struct_reads_two_keys_witness :
  from_json_to_spark decimal_int (JDict Sample.person)
  = from_json_to_spark decimal_int (JDict Sample.untyped_person).
Proof.
  apply (struct_reads_two_keys decimal_int Sample.person Sample.untyped_person);
    reflexivity.
Defined.

Lemma property_error_propagates_witness :
  from_json_to_spark decimal_int (JDict Sample.bad_property)
  = Raise (InvalidJSONType (JStr "frobnicate")).
Proof.
  apply (property_error_propagates decimal_int Sample.bad_property
           [("id", JDict [("type", JStr "boolean")])]
           [("name", JDict [("type", JStr "string")])]
           "age" (JDict Sample.frobnicate)).
  - reflexivity.
  - intros k v [H|[]]. injection H as <- <-. eexists. reflexivity.
  - intros _. exists []. reflexivity.
  - reflexivity.
Defined.

Lemma required_not_iterable_raises_witness :
  from_json_to_spark decimal_int (JDict Sample.required_true) = Raise TypeError.
Proof.
  apply (required_not_iterable_raises decimal_int Sample.required_true
           "id" (JDict [("type", JStr "boolean")]) [] (JBool true)
           (Some BooleanType)); reflexivity.
Defined.

Lemma array_result_shape_witness :
  (Some (ArrayType (Some BooleanType)) = None
   <-> dict_lookup "items" Sample.single_item = None)
  /\ (forall t, Some (ArrayType (Some BooleanType)) = Some t ->
      exists e, t = ArrayType e).
Proof.
  apply (array_result_shape decimal_int Sample.single_item
           (Some (ArrayType (Some BooleanType)))); reflexivity.
Defined.

Lemma single_item_as_list_witness :
  _map_json_type_to_spark_type decimal_int (JDict Sample.single_item)
  = _map_json_type_to_spark_type decimal_int (JDict Sample.listed_item).
Proof.
  apply (single_item_as_list decimal_int Sample.single_item Sample.listed_item
           [("type", JStr "boolean")]); reflexivity.
Defined.

Lemma item_error_propagates_witness :
  _map_json_type_to_spark_type decimal_int (JDict Sample.bad_first_item)
  = Raise (InvalidJSONType (JStr "frobnicate")).
Proof.
  apply (item_error_propagates decimal_int Sample.bad_first_item
           [] [JDict [("type", JStr "string")]] (JDict Sample.frobnicate)).
  - reflexivity.
  - reflexivity.
  - constructor.
  - reflexivity.
Defined.

Lemma item_with_type_maps_alike_witness :
  item_element_type decimal_int (JDict Sample.person)
  = _map_json_type_to_spark_type decimal_int (JDict Sample.person).
Proof.
  apply (item_with_type_maps_alike decimal_int Sample.person (JStr "object")).
  reflexivity.
Defined.

Lemma integer_returns_iff_bounds_convert_witness :
  (exists t,
      _map_json_type_to_spark_type decimal_int (JDict Sample.null_maximum)
      = Return (Some t))
  <-> bounds_convert decimal_int Sample.null_maximum.
Proof.
  apply (integer_returns_iff_bounds_convert decimal_int Sample.null_maximum).
  reflexivity.
Defined.

Lemma wider_range_never_narrower_witness :
  exists t t',
    _map_json_type_to_spark_type decimal_int (JDict Sample.percent)
    = Return (Some t)
    /\ _map_json_type_to_spark_type decimal_int (JDict Sample.small_int)
       = Return (Some t')
    /\ ~ narrower t' t.
Proof.
  apply (wider_range_never_narrower decimal_int Sample.percent Sample.small_int
           (Range.mk (Some 0) (Some 100) true)
           (Range.mk (Some (-129)) (Some 127) true)
           0 100 (-129) 127); try reflexivity; lia.
Defined.

Lemma integer_type_holds_allowed_witness :
  exists t,
    _map_json_type_to_spark_type decimal_int (JDict Sample.open_byte)
    = Return (Some t)
    /\ match width_range t with
       | Some (a, b) => a <= 127 <= b
       | None => t = LongType
       end.
Proof.
  apply (integer_type_holds_allowed decimal_int Sample.open_byte 127).
  - reflexivity.
  - intros keyword v [<-|[<-|[<-|[<-|[]]]]] H; simpl in H;
      try discriminate H; injection H as <-; eexists; reflexivity.
  - repeat split; intros z H; simpl in H; try discriminate H;
      injection H as <-; lia.
Defined.

Lemma returned_types_complete_witness :
  complete (StructType Sample.person_fields) = true.
Proof.
  apply (returned_types_complete decimal_int (JDict Sample.person)).
  right. reflexivity.
Defined.

Lemma property_without_type_asserts_witness :
  from_json_to_spark decimal_int (JDict Sample.property_bare)
  = Raise AssertionError.
Proof.
  apply (property_without_type_asserts decimal_int Sample.property_bare
           [] [] "a" (JDict Sample.bare)).
  - reflexivity.
  - intros k v [].
  - exists []. reflexivity.
  - reflexivity.
Defined.

Lemma item_without_type_asserts_witness :
  _map_json_type_to_spark_type decimal_int (JDict Sample.bare_array_first)
  = Raise AssertionError.
Proof.
  apply (item_without_type_asserts decimal_int Sample.bare_array_first
           [] [JDict [("type", JStr "string")]]
           (JDict Sample.array_without_items)); try reflexivity.
  constructor.
Defined.

(** The assertion reaches the caller through every level of nesting. *)
Example nested_none_asserts :
  from_json_to_spark decimal_int (JDict Sample.property_of_bare_array)
  = Raise AssertionError
  /\ _map_json_type_to_spark_type decimal_int
       (JDict [("type", JStr "array");
               ("items", JList [JDict Sample.array_of_bare_array;
                                JDict [("type", JStr "string")]])])
     = Raise AssertionError.
Proof. split; vm_compute; reflexivity. Qed.
